(** * TaskObservable: the real-time event hub of TaskFlow

    A shallow embedding of [src/lib/observers/TaskObserver.ts] (class
    [TaskObservable] and the concrete observer [TaskEventHandler]) and
    of the types of [src/lib/types/index.ts] it uses, followed by the
    properties of the hub: local fan-out, the offline event queue, the
    socket listeners and the error paths.

    Conventions of the embedding.
    - The object's fields are the first six fields of the record
      [TaskObservable].  What the object does to the outside world is
      recorded next to them: [delivered] (every call of an observer's
      [update], with the key the observer is registered under),
      [console] (every [console.error]), [reported] (every call of the
      configured [onError]) and [unhandled] (the rejections of promises
      that nobody awaits); every [socket.emit] is recorded in the
      socket's [sent] list.
    - Methods are computations in a state-and-exception monad [M]: a
      JavaScript [throw], and the rejection of an awaited promise, are
      the [Throw] outcome; [try ... catch] is [try_catch].
    - Every [async] method runs to completion before the next call or
      socket event is processed: each [await] is on promises that settle,
      and no other listener is interleaved at the suspension point.
    - Observers and the [onError] handler do not call back into the hub,
      and [onError] itself does not throw.
    - [new Date()] and the generated observer id are inputs ([now], [id])
      of the methods that read them. *)

From Stdlib Require Import List String ZArith Bool Lia.
Import ListNotations.
Local Open Scope string_scope.

Set Implicit Arguments.

(** ** JavaScript values that cross the socket *)

Local Unset Elimination Schemes.

Inductive JsVal : Type :=
| JUndefined
| JNull
| JBool (b : bool)
| JNum (n : Z)
| JStr (s : string)
| JDateV (d : Date)
| JObj (fields : list (string * JsVal))
with Date : Type :=
| DateNow (ms : Z)        (* [new Date()] read at clock value [ms] *)
| DateOf (arg : JsVal).   (* [new Date(arg)] for a value that is not a Date *)

Local Set Elimination Schemes.

(** [new Date(v)]: a Date argument is copied, anything else is parsed by
    the constructor (kept symbolic). *)
Definition new_Date (v : JsVal) : Date :=
  match v with
  | JDateV d => d
  | _ => DateOf v
  end.

(** The outcome of evaluating a JavaScript expression or awaiting a
    promise: a value, or a thrown error (rendered as by [`${error}`]). *)
Inductive Result (A : Type) : Type :=
| Ok (a : A)
| Throw (error : string).
Arguments Ok {A} a.
Arguments Throw {A} error.

Fixpoint assoc (k : string) (l : list (string * JsVal)) : JsVal :=
  match l with
  | [] => JUndefined
  | (k', v) :: l' => if String.eqb k k' then v else assoc k l'
  end.

(** Property read [v.k]: a TypeError on [null] and [undefined], the
    stored value on an object, [undefined] for the names read here on
    any other value. *)
Definition get_prop (v : JsVal) (k : string) : Result JsVal :=
  match v with
  | JUndefined => Throw ("TypeError: Cannot read properties of undefined (reading '" ++ k ++ "')")
  | JNull => Throw ("TypeError: Cannot read properties of null (reading '" ++ k ++ "')")
  | JObj fields => Ok (assoc k fields)
  | _ => Ok JUndefined
  end.

(** JavaScript truthiness, as used by [a || b]. *)
Definition truthy (v : JsVal) : bool :=
  match v with
  | JUndefined | JNull => false
  | JBool b => b
  | JNum n => negb (Z.eqb n 0)
  | JStr s => negb (String.eqb s "")
  | JDateV _ | JObj _ => true
  end.

(** ** Types of [src/lib/types/index.ts] *)

(** [TaskEvent].  The fields hold run-time values: an event built from
    an inbound message carries whatever the message held. *)
Record TaskEvent : Type := mkTaskEvent {
  type : JsVal;
  taskId : JsVal;
  ev_userId : JsVal;
  timestamp : Date;
  data : JsVal
}.

(** [Task]: its [id], and the other fields as they are serialised. *)
Record Task : Type := mkTask {
  id : string;
  task_fields : list (string * JsVal)
}.

Definition task_value (task : Task) : JsVal :=
  JObj (("id", JStr (id task)) :: task_fields task).

Record UserPresence : Type := mkUserPresence {
  up_userId : string;
  isOnline : bool;
  currentTaskId : option string;
  lastSeen : Date
}.

(** How a [Promise<void>] settles. *)
Inductive Settled : Type :=
| Fulfilled
| Rejected (reason : string).

(** What a call of type [void | Promise<void>] returns. *)
Inductive Returned : Type :=
| ReturnsVoid
| ReturnsPromise (p : Settled).

(** [Promise.resolve(x)]. *)
Definition Promise_resolve (x : Returned) : Settled :=
  match x with
  | ReturnsVoid => Fulfilled
  | ReturnsPromise p => p
  end.

(** [Promise.allSettled(ps)]: fulfils whatever the [ps] do. *)
Definition Promise_allSettled (ps : list Settled) : Settled := Fulfilled.

(** [Observer<TaskEvent>]: an object (identity [obs_ref], compared by
    [===]) with an [update] method, which returns or throws. *)
Record Observer : Type := mkObserver {
  obs_ref : nat;
  update : TaskEvent -> Result Returned
}.

(** ** The socket *)

(** What [socket.emit] was called with. *)
Record TaskEventMessage : Type := mkTaskEventMessage {
  msg_type : JsVal;
  msg_taskId : JsVal;
  msg_userId : JsVal;
  msg_timestamp : Date;     (* sent as [timestamp.toISOString()] *)
  msg_payload : JsVal
}.

Inductive Emission : Type :=
| EmitTaskEvent (m : TaskEventMessage)    (* [socket.emit("task:event", m)] *)
| EmitUserPresence (p : UserPresence).    (* [socket.emit("user:presence", p)] *)

(** The listeners [initializeSocketHandlers] installs. *)
Inductive Handler : Type :=
| OnConnect
| OnDisconnect
| HandleTaskEvent
| HandlePresenceUpdate.

Record Socket : Type := mkSocket {
  handlers : list (string * Handler);   (* [socket.on(name, h)], in order *)
  sent : list Emission;                 (* [socket.emit], in order *)
  closed : bool                         (* [socket.disconnect()] was called *)
}.

Definition fresh_socket : Socket := mkSocket [] [] false.

(** ** The object *)

Record TaskObservable : Type := mkTaskObservable {
  observers : list (string * Observer);   (* [Map<string, Observer>], insertion order *)
  socket : option Socket;
  userId : string;
  eventQueue : list TaskEvent;
  isConnected : bool;
  onError : bool;                         (* [dependencies.onError] is configured *)
  delivered : list (string * TaskEvent);
  console : list string;
  reported : list string;
  unhandled : list string
}.

Definition set_observers (v : list (string * Observer)) (s : TaskObservable) :=
  mkTaskObservable v (socket s) (userId s) (eventQueue s) (isConnected s)
    (onError s) (delivered s) (console s) (reported s) (unhandled s).
Definition set_socket (v : option Socket) (s : TaskObservable) :=
  mkTaskObservable (observers s) v (userId s) (eventQueue s) (isConnected s)
    (onError s) (delivered s) (console s) (reported s) (unhandled s).
Definition set_eventQueue (v : list TaskEvent) (s : TaskObservable) :=
  mkTaskObservable (observers s) (socket s) (userId s) v (isConnected s)
    (onError s) (delivered s) (console s) (reported s) (unhandled s).
Definition set_isConnected (v : bool) (s : TaskObservable) :=
  mkTaskObservable (observers s) (socket s) (userId s) (eventQueue s) v
    (onError s) (delivered s) (console s) (reported s) (unhandled s).
Definition set_delivered (v : list (string * TaskEvent)) (s : TaskObservable) :=
  mkTaskObservable (observers s) (socket s) (userId s) (eventQueue s)
    (isConnected s) (onError s) v (console s) (reported s) (unhandled s).
Definition set_console (v : list string) (s : TaskObservable) :=
  mkTaskObservable (observers s) (socket s) (userId s) (eventQueue s)
    (isConnected s) (onError s) (delivered s) v (reported s) (unhandled s).
Definition set_reported (v : list string) (s : TaskObservable) :=
  mkTaskObservable (observers s) (socket s) (userId s) (eventQueue s)
    (isConnected s) (onError s) (delivered s) (console s) v (unhandled s).
Definition set_unhandled (v : list string) (s : TaskObservable) :=
  mkTaskObservable (observers s) (socket s) (userId s) (eventQueue s)
    (isConnected s) (onError s) (delivered s) (console s) (reported s) v.

(** ** The monad of methods *)

Definition M (A : Type) : Type := TaskObservable -> Result A * TaskObservable.

Definition ret {A} (a : A) : M A := fun s => (Ok a, s).
Definition throw {A} (error : string) : M A := fun s => (Throw error, s).
Definition bind {A B} (m : M A) (f : A -> M B) : M B :=
  fun s => match m s with
           | (Ok a, s1) => f a s1
           | (Throw error, s1) => (Throw error, s1)
           end.
Definition try_catch {A} (m : M A) (h : string -> M A) : M A :=
  fun s => match m s with
           | (Ok a, s1) => (Ok a, s1)
           | (Throw error, s1) => h error s1
           end.
Definition gets {A} (f : TaskObservable -> A) : M A := fun s => (Ok (f s), s).
Definition modify (f : TaskObservable -> TaskObservable) : M unit :=
  fun s => (Ok tt, f s).
Definition lift {A} (r : Result A) : M A := fun s => (r, s).

(** [await p]. *)
Definition await (p : Settled) : M unit :=
  match p with
  | Fulfilled => ret tt
  | Rejected reason => throw reason
  end.

Notation "x <- m ;; k" := (bind m (fun x => k))
  (at level 61, m at next level, right associativity).
Notation "m ;;; k" := (bind m (fun _ => k))
  (at level 61, right associativity).

Definition exec {A} (m : M A) (s : TaskObservable) : TaskObservable := snd (m s).
Definition outcome {A} (m : M A) (s : TaskObservable) : Result A := fst (m s).

(** ** [class TaskObservable] *)

(** [Map.prototype.set]: an existing key keeps its place. *)
Fixpoint map_set (k : string) (v : Observer) (m : list (string * Observer))
  : list (string * Observer) :=
  match m with
  | [] => [(k, v)]
  | (k', v') :: m' =>
      if String.eqb k k' then (k, v) :: m' else (k', v') :: map_set k v m'
  end.

(** The loop of [removeObserver]: delete the first entry holding
    [observer], then [break]. *)
Fixpoint remove_first (observer : Observer) (m : list (string * Observer))
  : list (string * Observer) :=
  match m with
  | [] => []
  | (k, obs) :: m' =>
      if Nat.eqb (obs_ref obs) (obs_ref observer) then m'
      else (k, obs) :: remove_first observer m'
  end.

(** [constructor] with [initializeSocketHandlers]: without a socket no
    listener is installed. *)
Definition initializeSocketHandlers (sock : option Socket) : option Socket :=
  match sock with
  | None => None
  | Some so =>
      Some (mkSocket
              (handlers so ++
               [("connect", OnConnect);
                ("disconnect", OnDisconnect);
                ("task:updated", HandleTaskEvent);
                ("task:created", HandleTaskEvent);
                ("task:deleted", HandleTaskEvent);
                ("user:presence", HandlePresenceUpdate)])
              (sent so) (closed so))
  end.

Definition new_TaskObservable (sock : option Socket) (uid : string)
    (has_onError : bool) : TaskObservable :=
  mkTaskObservable [] (initializeSocketHandlers sock) uid [] false
    has_onError [] [] [] [].

Definition addObserver (observer : Observer) (id : string) : M unit :=
  modify (fun s => set_observers (map_set id observer (observers s)) s).

Definition removeObserver (observer : Observer) : M unit :=
  modify (fun s => set_observers (remove_first observer (observers s)) s).

(** [handleError]: [console.error], then [onError] when configured. *)
Definition handleError (error : string) : M unit :=
  modify (fun s => set_console (console s ++ ["TaskObserver Error: " ++ error]) s) ;;;
  has <- gets onError ;;
  if has then modify (fun s => set_reported (reported s ++ [error]) s)
  else ret tt.

(** The reasons of the promises of [ps] that reject. *)
Definition rejections (ps : list Settled) : list string :=
  flat_map (fun p => match p with
                     | Rejected reason => [reason]
                     | Fulfilled => []
                     end) ps.

(** The [map] of [notify]: each observer's [update] is called in the
    order of the Map, [made] being the promises made so far.  A call
    that throws ends the [map]: the array is never built, so the
    promises already made reach no [Promise.allSettled], and those of
    them that reject are unhandled rejections. *)
Fixpoint call_updates (made : list Settled) (obs : list (string * Observer))
    (data : TaskEvent) : M (list Settled) :=
  match obs with
  | [] => ret made
  | (k, observer) :: rest =>
      modify (fun s => set_delivered (delivered s ++ [(k, data)]) s) ;;;
      r <- try_catch (lift (update observer data))
             (fun error =>
                modify (fun s =>
                  set_unhandled (unhandled s ++ rejections made) s) ;;;
                throw error) ;;
      call_updates (made ++ [Promise_resolve r]) rest data
  end.

Definition notify (data : TaskEvent) : M unit :=
  obs <- gets observers ;;
  notifications <- call_updates [] obs data ;;
  try_catch
    (await (Promise_allSettled notifications))
    (fun error => handleError ("Observer notification failed: " ++ error)).

(** [processEventQueue]: the [while] loop, one iteration per unit of
    [fuel]; [None] when the fuel runs out before the loop ends.  A
    queued event is an object, so the test [if (event)] on what
    [shift()] returned always passes. *)
Fixpoint processEventQueue (fuel : nat) : M (option unit) :=
  match fuel with
  | O => ret None
  | S fuel' =>
      q <- gets eventQueue ;;
      c <- gets isConnected ;;
      match q with
      | event :: q' =>
          if c then
            modify (set_eventQueue q') ;;;     (* [shift()] *)
            notify event ;;;
            processEventQueue fuel'
          else ret (Some tt)
      | [] => ret (Some tt)
      end
  end.

Definition handleTaskEvent (d : JsVal) : M unit :=
  try_catch
    (ty <- lift (get_prop d "type") ;;
     tid <- lift (get_prop d "taskId") ;;
     uid <- lift (get_prop d "userId") ;;
     ts <- lift (get_prop d "timestamp") ;;
     payload <- lift (get_prop d "payload") ;;
     let event := mkTaskEvent ty tid uid (new_Date ts) payload in
     c <- gets isConnected ;;
     if c then notify event
     else modify (fun s => set_eventQueue (eventQueue s ++ [event]) s))
    (fun error => handleError ("Task event handling failed: " ++ error)).

(** A [TaskEvent] seen as the [Record<string, unknown>] it is. *)
Definition event_object (e : TaskEvent) : JsVal :=
  JObj [("type", type e); ("taskId", taskId e); ("userId", ev_userId e);
        ("timestamp", JDateV (timestamp e)); ("data", data e)].

Definition handlePresenceUpdate (d : JsVal) (now : Z) : M unit :=
  cur <- lift (get_prop d "currentTaskId") ;;
  uid <- lift (get_prop d "userId") ;;
  let event := mkTaskEvent (JStr "USER_PRESENCE_UPDATED")
                 (if truthy cur then cur else JStr "") uid (DateNow now) d in
  handleTaskEvent (event_object event).

Definition socket_emit (e : Emission) : M unit :=
  modify (fun s =>
    match socket s with
    | Some so => set_socket (Some (mkSocket (handlers so) (sent so ++ [e]) (closed so))) s
    | None => s
    end).

Definition broadcastEvent (event : TaskEvent) : M unit :=
  notify event ;;;
  so <- gets socket ;;
  c <- gets isConnected ;;
  match so with
  | Some _ =>
      if c then
        socket_emit (EmitTaskEvent
          (mkTaskEventMessage (type event) (taskId event) (ev_userId event)
             (timestamp event) (data event)))
      else modify (fun s => set_eventQueue (eventQueue s ++ [event]) s)
  | None => modify (fun s => set_eventQueue (eventQueue s ++ [event]) s)
  end.

Definition emitTaskCreated (task : Task) (now : Z) : M unit :=
  uid <- gets userId ;;
  broadcastEvent
    (mkTaskEvent (JStr "TASK_CREATED") (JStr (id task)) (JStr uid)
       (DateNow now) (task_value task)).

Definition emitTaskUpdated (task : Task) (now : Z) : M unit :=
  uid <- gets userId ;;
  broadcastEvent
    (mkTaskEvent (JStr "TASK_UPDATED") (JStr (id task)) (JStr uid)
       (DateNow now) (task_value task)).

Definition emitTaskDeleted (tid : string) (now : Z) : M unit :=
  uid <- gets userId ;;
  broadcastEvent
    (mkTaskEvent (JStr "TASK_DELETED") (JStr tid) (JStr uid)
       (DateNow now) (JObj [("taskId", JStr tid)])).

Definition updatePresence (cur : option string) (now : Z) : M unit :=
  so <- gets socket ;;
  c <- gets isConnected ;;
  uid <- gets userId ;;
  match so with
  | Some _ =>
      if c then socket_emit (EmitUserPresence (mkUserPresence uid true cur (DateNow now)))
      else ret tt
  | None => ret tt
  end.

(** [disconnect()]; what [socket.disconnect()] does to the socket is
    kept as the flag [closed]. *)
Definition disconnect : M unit :=
  modify (fun s =>
    match socket s with
    | Some so => set_socket (Some (mkSocket (handlers so) (sent so) true)) s
    | None => s
    end) ;;;
  modify (set_observers []) ;;;
  modify (set_eventQueue []) ;;;
  modify (set_isConnected false).

Record ObserverMetrics : Type := mkObserverMetrics {
  observerCount : nat;
  queuedEvents : nat;
  metrics_isConnected : bool;
  connectionUptime : Z
}.

Definition getObserverMetrics (now : Z) (s : TaskObservable) : ObserverMetrics :=
  mkObserverMetrics (List.length (observers s)) (List.length (eventQueue s))
    (isConnected s) (if isConnected s then now else 0%Z).

(** ** Socket events *)

(** A promise nobody awaits: its rejection is an unhandled rejection,
    the caller goes on. *)
Definition detached {A} (m : M A) : M unit :=
  fun s => match m s with
           | (Ok _, s1) => (Ok tt, s1)
           | (Throw error, s1) => (Ok tt, set_unhandled (unhandled s1 ++ [error]) s1)
           end.

(** The listener bodies of [initializeSocketHandlers].  The loop of
    [processEventQueue] shortens a non-empty queue at every iteration,
    so one unit of fuel more than the queue is long covers it. *)
Definition run_handler (h : Handler) (d : JsVal) (now : Z) : M unit :=
  match h with
  | OnConnect =>
      modify (set_isConnected true) ;;;
      q <- gets eventQueue ;;
      detached (processEventQueue (S (List.length q)))
  | OnDisconnect => modify (set_isConnected false)
  | HandleTaskEvent => detached (handleTaskEvent d)
  | HandlePresenceUpdate => detached (handlePresenceUpdate d now)
  end.

Fixpoint run_handlers (name : string) (hs : list (string * Handler))
    (d : JsVal) (now : Z) : M unit :=
  match hs with
  | [] => ret tt
  | (n, h) :: hs' =>
      (if String.eqb n name then run_handler h d now else ret tt) ;;;
      run_handlers name hs' d now
  end.

(** The socket delivers event [name] with argument [d]. *)
Definition fire (name : string) (d : JsVal) (now : Z) : M unit :=
  so <- gets socket ;;
  match so with
  | Some so => run_handlers name (handlers so) d now
  | None => ret tt
  end.

(** ** [class TaskEventHandler] *)

Definition EventCallback : Type := JsVal -> Result Returned.

Record Callbacks : Type := mkCallbacks {
  onTaskCreated : option EventCallback;
  onTaskUpdated : option EventCallback;
  onTaskDeleted : option EventCallback
}.

(** [await Promise.resolve(cb(x))] inside an [async] body: a throw and a
    rejection both reject the body's promise. *)
Definition awaited (r : Result Returned) : Settled :=
  match r with
  | Ok x => Promise_resolve x
  | Throw error => Rejected error
  end.

Definition js_is (v : JsVal) (s : string) : bool :=
  match v with
  | JStr s' => String.eqb s' s
  | _ => false
  end.

(** [update]: the [switch] on [event.type]; the [default] branch only
    writes to [console.log]. *)
Definition TaskEventHandler_update (cb : Callbacks) (event : TaskEvent)
  : Result Returned :=
  Ok (ReturnsPromise
    (if js_is (type event) "TASK_CREATED" then
       match onTaskCreated cb with
       | Some f => if truthy (data event) then awaited (f (data event)) else Fulfilled
       | None => Fulfilled
       end
     else if js_is (type event) "TASK_UPDATED" then
       match onTaskUpdated cb with
       | Some f => if truthy (data event) then awaited (f (data event)) else Fulfilled
       | None => Fulfilled
       end
     else if js_is (type event) "TASK_DELETED" then
       match onTaskDeleted cb with
       | Some f => awaited (f (taskId event))
       | None => Fulfilled
       end
     else Fulfilled)).

Definition TaskEventHandler (ref : nat) (cb : Callbacks) : Observer :=
  mkObserver ref (TaskEventHandler_update cb).

(** ** Runs of the object *)

Inductive Action : Type :=
| AddObserver (observer : Observer) (id : string)
| RemoveObserver (observer : Observer)
| Notify (event : TaskEvent)
| EmitTaskCreated (task : Task) (now : Z)
| EmitTaskUpdated (task : Task) (now : Z)
| EmitTaskDeleted (tid : string) (now : Z)
| UpdatePresence (cur : option string) (now : Z)
| Disconnect
| SocketEvent (name : string) (d : JsVal) (now : Z).

Definition perform (a : Action) : M unit :=
  match a with
  | AddObserver observer id => addObserver observer id
  | RemoveObserver observer => removeObserver observer
  | Notify event => notify event
  | EmitTaskCreated task now => emitTaskCreated task now
  | EmitTaskUpdated task now => emitTaskUpdated task now
  | EmitTaskDeleted tid now => emitTaskDeleted tid now
  | UpdatePresence cur now => updatePresence cur now
  | Disconnect => disconnect
  | SocketEvent name d now => fire name d now
  end.

Definition step (a : Action) (s : TaskObservable) : TaskObservable :=
  exec (perform a) s.

Definition run (acts : list Action) (s : TaskObservable) : TaskObservable :=
  fold_left (fun s a => step a s) acts s.

(** ** Vocabulary of the statements *)

(** One event handed to each of [obs], in order. *)
Definition fanout (obs : list (string * Observer)) (e : TaskEvent)
  : list (string * TaskEvent) :=
  map (fun ko => (fst ko, e)) obs.

Definition throws (o : Observer) (e : TaskEvent) : bool :=
  match update o e with
  | Throw _ => true
  | Ok _ => false
  end.

(** No [update] of [obs] throws on [e] (it may return a promise that
    rejects). *)
Definition quiet (obs : list (string * Observer)) (e : TaskEvent) : bool :=
  forallb (fun ko => negb (throws (snd ko) e)) obs.

(** The observers whose [update] the [map] of [notify] reaches: all of
    them up to and including the first one that throws. *)
Fixpoint reached (obs : list (string * Observer)) (e : TaskEvent)
  : list (string * Observer) :=
  match obs with
  | [] => []
  | (k, o) :: rest => (k, o) :: (if throws o e then [] else reached rest e)
  end.

Fixpoint first_throw (obs : list (string * Observer)) (e : TaskEvent)
  : option string :=
  match obs with
  | [] => None
  | (_, o) :: rest =>
      match update o e with
      | Throw error => Some error
      | Ok _ => first_throw rest e
      end
  end.

(** The promises the [map] of [notify] has made when it ends. *)
Fixpoint settled_before (obs : list (string * Observer)) (e : TaskEvent)
  : list Settled :=
  match obs with
  | [] => []
  | (_, o) :: rest =>
      match update o e with
      | Ok r => Promise_resolve r :: settled_before rest e
      | Throw _ => []
      end
  end.

(** The rejections left unhandled when an [update] throws: those of the
    promises returned by the observers called before it. *)
Definition orphaned (obs : list (string * Observer)) (e : TaskEvent)
  : list string :=
  match first_throw obs e with
  | Some _ => rejections (settled_before obs e)
  | None => []
  end.

(** The events the observer registered under [k] was called with. *)
Definition received (k : string) (l : list (string * TaskEvent)) : list TaskEvent :=
  map snd (filter (fun d => String.eqb (fst d) k) l).

(** What was delivered between state [s] and a later state [s']. *)
Definition delivered_since (s s' : TaskObservable) : list (string * TaskEvent) :=
  skipn (List.length (delivered s)) (delivered s').

Definition sent_of (s : TaskObservable) : list Emission :=
  match socket s with
  | Some so => sent so
  | None => []
  end.

Definition keys_distinct (s : TaskObservable) : Prop :=
  NoDup (map fst (observers s)).

(** The six listeners of [initializeSocketHandlers] are installed. *)
Definition wired (s : TaskObservable) : Prop :=
  exists so, socket s = Some so /\
    handlers so = [("connect", OnConnect);
                   ("disconnect", OnDisconnect);
                   ("task:updated", HandleTaskEvent);
                   ("task:created", HandleTaskEvent);
                   ("task:deleted", HandleTaskEvent);
                   ("user:presence", HandlePresenceUpdate)].

(** A local publication: one of the three [emitTask...] calls. *)
Inductive Publish : Type :=
| PubCreated (task : Task)
| PubUpdated (task : Task)
| PubDeleted (tid : string).

Definition publish (p : Publish) (now : Z) : M unit :=
  match p with
  | PubCreated task => emitTaskCreated task now
  | PubUpdated task => emitTaskUpdated task now
  | PubDeleted tid => emitTaskDeleted tid now
  end.

(** The event a publication builds for the user [uid]. *)
Definition event_of (uid : string) (pn : Publish * Z) : TaskEvent :=
  match fst pn with
  | PubCreated task =>
      mkTaskEvent (JStr "TASK_CREATED") (JStr (id task)) (JStr uid)
        (DateNow (snd pn)) (task_value task)
  | PubUpdated task =>
      mkTaskEvent (JStr "TASK_UPDATED") (JStr (id task)) (JStr uid)
        (DateNow (snd pn)) (task_value task)
  | PubDeleted tid =>
      mkTaskEvent (JStr "TASK_DELETED") (JStr tid) (JStr uid)
        (DateNow (snd pn)) (JObj [("taskId", JStr tid)])
  end.

Definition publish_all (ps : list (Publish * Z)) (s : TaskObservable)
  : TaskObservable :=
  fold_left (fun s pn => exec (publish (fst pn) (snd pn)) s) ps s.

Definition message_of (e : TaskEvent) : Emission :=
  EmitTaskEvent (mkTaskEventMessage (type e) (taskId e) (ev_userId e)
                   (timestamp e) (data e)).

(** The events about one subject. *)
Definition about (subject : string) (e : TaskEvent) : bool :=
  js_is (taskId e) subject.

(** ** Views, listeners and reachable states *)

(** A computation leaves the view [f] of the object as it was. *)
Definition preserves {F A} (f : TaskObservable -> F) (m : M A) : Prop :=
  forall s, f (exec m s) = f s.

(** A computation that cannot throw. *)
Definition total {A} (m : M A) : Prop :=
  forall s, exists a, outcome m s = Ok a.

(** The listener [initializeSocketHandlers] installs for an event name. *)
Definition handler_for (name : string) : option Handler :=
  if String.eqb "connect" name then Some OnConnect
  else if String.eqb "disconnect" name then Some OnDisconnect
  else if String.eqb "task:updated" name then Some HandleTaskEvent
  else if String.eqb "task:created" name then Some HandleTaskEvent
  else if String.eqb "task:deleted" name then Some HandleTaskEvent
  else if String.eqb "user:presence" name then Some HandlePresenceUpdate
  else None.

(** The listeners on the socket, if there is one. *)
Definition listeners (s : TaskObservable) : option (list (string * Handler)) :=
  option_map handlers (socket s).

(** The states a program can bring a hub to; the hub is built on a new
    socket or on none. *)
Definition reachable (s : TaskObservable) : Prop :=
  exists has_socket uid has_onError acts,
    s = run acts
          (new_TaskObservable (if has_socket : bool then Some fresh_socket else None)
             uid has_onError).


(** ** Inbound messages *)

Definition nullish (d : JsVal) : bool :=
  match d with
  | JUndefined | JNull => true
  | _ => false
  end.

(** The event [handleTaskEvent] builds from a value on which property
    reads succeed. *)
Definition inbound_event (d : JsVal) : TaskEvent :=
  match d with
  | JObj fields =>
      mkTaskEvent (assoc "type" fields) (assoc "taskId" fields)
        (assoc "userId" fields) (new_Date (assoc "timestamp" fields))
        (assoc "payload" fields)
  | _ => mkTaskEvent JUndefined JUndefined JUndefined (DateOf JUndefined) JUndefined
  end.



(** ** The connection state *)

(** The three states of the specification.  The code keeps one boolean,
    [isConnected]. *)
Inductive ConnectionState : Type :=
| Disconnected
| Connecting
| Connected.

Definition connectionState (s : TaskObservable) : ConnectionState :=
  if isConnected s then Connected else Disconnected.

(** The transitions the specification allows. *)
Definition spec_transition (c c' : ConnectionState) : bool :=
  match c, c' with
  | Disconnected, Connecting => true
  | Connecting, Connected => true
  | Connected, Disconnected => true
  | _, _ => false
  end.

(** ** Fixtures *)

(** An observer whose [update] returns normally. *)
Definition recorder (ref : nat) : Observer :=
  mkObserver ref (fun _ => Ok ReturnsVoid).

(** An observer whose [async update] always fails: the promise it
    returns rejects. *)
Definition rejecting (ref : nat) : Observer :=
  mkObserver ref (fun _ => Ok (ReturnsPromise (Rejected "Error: boom"))).

(** An observer whose plain (not [async]) [update] raises. *)
Definition raising (ref : nat) : Observer :=
  mkObserver ref (fun _ => Throw "Error: boom").

Definition task1 : Task := mkTask "t1" [("title", JStr "one")].
Definition task2 : Task := mkTask "t2" [("title", JStr "two")].

(** A hub on a socket, with an [onError] handler, not yet connected. *)
Definition hub0 : TaskObservable :=
  new_TaskObservable (Some fresh_socket) "alice" true.

(** The same hub with a recorder and a rejecting observer, offline. *)
Definition hub_offline : TaskObservable :=
  run [AddObserver (recorder 1) "a"; AddObserver (rejecting 2) "b"] hub0.

(** ... and after the socket's [connect]. *)
Definition hub_online : TaskObservable :=
  run [SocketEvent "connect" JUndefined 0%Z] hub_offline.

(** A hub whose first observer raises, connected. *)
Definition hub_raising : TaskObservable :=
  run [AddObserver (raising 1) "a"; AddObserver (recorder 2) "b";
       SocketEvent "connect" JUndefined 0%Z] hub0.

Definition three_publications : list (Publish * Z) :=
  [(PubCreated task1, 1%Z); (PubCreated task2, 2%Z); (PubUpdated task1, 3%Z)].

Definition five_publications : list (Publish * Z) :=
  [(PubCreated task1, 1%Z); (PubCreated task2, 2%Z); (PubUpdated task1, 3%Z);
   (PubUpdated task2, 4%Z); (PubDeleted "t1", 5%Z)].

(** ** The rest of the two classes *)

(** [TaskEventHandler.onTaskCreated], [onTaskUpdated] and
    [onTaskDeleted]: [async] methods that forward their argument to the
    callback when there is one. *)
Definition TaskEventHandler_onTaskCreated (cb : Callbacks) (task : JsVal)
  : Result Returned :=
  Ok (ReturnsPromise
        match onTaskCreated cb with
        | Some f => awaited (f task)
        | None => Fulfilled
        end).

Definition TaskEventHandler_onTaskUpdated (cb : Callbacks) (task : JsVal)
  : Result Returned :=
  Ok (ReturnsPromise
        match onTaskUpdated cb with
        | Some f => awaited (f task)
        | None => Fulfilled
        end).

Definition TaskEventHandler_onTaskDeleted (cb : Callbacks) (tid : JsVal)
  : Result Returned :=
  Ok (ReturnsPromise
        match onTaskDeleted cb with
        | Some f => awaited (f tid)
        | None => Fulfilled
        end).

(** The object literal [broadcastEvent] hands to [socket.emit]; [iso] is
    [Date.prototype.toISOString]. *)
Definition wire_object (iso : Date -> string) (m : TaskEventMessage) : JsVal :=
  JObj [("type", msg_type m); ("taskId", msg_taskId m);
        ("userId", msg_userId m); ("timestamp", JStr (iso (msg_timestamp m)));
        ("payload", msg_payload m)].

(** The event names [initializeSocketHandlers] listens to. *)
Definition socket_event_names : list string :=
  ["connect"; "disconnect"; "task:updated"; "task:created"; "task:deleted";
   "user:presence"].

(** [Map.prototype.get] on the observer Map. *)
Fixpoint map_get (k : string) (m : list (string * Observer)) : option Observer :=
  match m with
  | [] => None
  | (k', v) :: m' => if String.eqb k k' then Some v else map_get k m'
  end.

(** The entry holds the object [observer] (the test [obs === observer]). *)
Definition same_observer (observer : Observer) (ko : string * Observer) : bool :=
  Nat.eqb (obs_ref (snd ko)) (obs_ref observer).

(** The event [handlePresenceUpdate] hands to the observers for a
    presence record with the given fields, read at clock value [now]. *)
Definition presence_event (fields : list (string * JsVal)) (now : Z) : TaskEvent :=
  mkTaskEvent (JStr "USER_PRESENCE_UPDATED")
    (if truthy (assoc "currentTaskId" fields)
     then assoc "currentTaskId" fields else JStr "")
    (assoc "userId" fields) (DateNow now) JUndefined.

(** Every observer is a [TaskEventHandler]. *)
Definition all_handlers (obs : list (string * Observer)) : Prop :=
  forall k o, In (k, o) obs -> exists ref cb, o = TaskEventHandler ref cb.

(** ** Further fixtures *)

(** Callbacks that fail in the three possible ways. *)
Definition failing_callbacks : Callbacks :=
  mkCallbacks (Some (fun _ => Throw "Error: created"))
              (Some (fun _ => Ok (ReturnsPromise (Rejected "Error: updated"))))
              (Some (fun _ => Throw "Error: deleted")).

(** A connected hub whose observers are two [TaskEventHandler]s. *)
Definition hub_handlers : TaskObservable :=
  run [AddObserver (TaskEventHandler 1 failing_callbacks) "a";
       AddObserver (TaskEventHandler 2 (mkCallbacks None None None)) "b";
       SocketEvent "connect" JUndefined 0%Z] hub0.

(** A hub that queued two events while offline and then got three
    observers: one whose promise rejects, one that raises, one that
    returns. *)
Definition hub_backlog_rejecting_raising : TaskObservable :=
  run [EmitTaskCreated task1 1%Z; EmitTaskCreated task2 2%Z;
       AddObserver (mkObserver 1 (fun _ =>
                      Ok (ReturnsPromise (Rejected "Error: rejected")))) "a";
       AddObserver (mkObserver 2 (fun _ => Throw "Error: raised")) "b";
       AddObserver (recorder 3) "c"] hub0.

Definition iso_stub (d : Date) : string :=
  match d with
  | DateNow _ => "2024-01-01T00:00:00.000Z"
  | DateOf _ => "1970-01-01T00:00:00.000Z"
  end.

Definition presence_fields : list (string * JsVal) :=
  [("userId", JStr "bob"); ("isOnline", JBool false);
   ("currentTaskId", JStr "t1")].


(** The calls and socket events that neither connect the hub nor empty
    its queue: everything but [disconnect()] and the socket's
    [connect]. *)
Definition keeps_offline (a : Action) : bool :=
  match a with
  | Disconnect => false
  | SocketEvent name _ _ => negb (String.eqb "connect" name)
  | _ => true
  end.

(** * Properties *)

(** ** Laws of the monad *)

Lemma bind_ok {A B} (m : M A) (k : A -> M B) s a s1 :
  m s = (Ok a, s1) -> bind m k s = k a s1.
Proof. intros H. unfold bind. now rewrite H. Qed.

Lemma bind_throw {A B} (m : M A) (k : A -> M B) s error s1 :
  m s = (Throw error, s1) -> bind m k s = (Throw error, s1).
Proof. intros H. unfold bind. now rewrite H. Qed.

Section Preserves.
Context {F : Type} (f : TaskObservable -> F).

Lemma preserves_ret {A} (a : A) : preserves f (ret a).
Proof. now intros s. Qed.

Lemma preserves_throw {A} error : preserves f (@throw A error).
Proof. now intros s. Qed.

Lemma preserves_lift {A} (r : Result A) : preserves f (lift r).
Proof. now intros s. Qed.

Lemma preserves_gets {A} (g : TaskObservable -> A) : preserves f (gets g).
Proof. now intros s. Qed.

Lemma preserves_await p : preserves f (await p).
Proof. destruct p; now intros s. Qed.

Lemma preserves_modify g :
  (forall s, f (g s) = f s) -> preserves f (modify g).
Proof. intros H s. apply H. Qed.

Lemma preserves_bind {A B} (m : M A) (k : A -> M B) :
  preserves f m -> (forall a, preserves f (k a)) -> preserves f (bind m k).
Proof.
  intros Hm Hk s. unfold exec, bind.
  specialize (Hm s). unfold exec in Hm.
  destruct (m s) as [[a | error] s1]; simpl in *.
  - rewrite <- Hm. apply Hk.
  - exact Hm.
Qed.

Lemma preserves_try_catch {A} (m : M A) (h : string -> M A) :
  preserves f m -> (forall error, preserves f (h error)) ->
  preserves f (try_catch m h).
Proof.
  intros Hm Hh s. unfold exec, try_catch.
  specialize (Hm s). unfold exec in Hm.
  destruct (m s) as [[a | error] s1]; simpl in *.
  - exact Hm.
  - rewrite <- Hm. apply Hh.
Qed.

Lemma preserves_detached {A} (m : M A) :
  (forall v s, f (set_unhandled v s) = f s) ->
  preserves f m -> preserves f (detached m).
Proof.
  intros Hu Hm s. unfold exec, detached.
  specialize (Hm s). unfold exec in Hm.
  destruct (m s) as [[a | error] s1]; simpl in *.
  - exact Hm.
  - now rewrite Hu.
Qed.
End Preserves.

(** Structural steps of a [preserves] goal. *)
Ltac frame_step :=
  first
    [ apply preserves_ret | apply preserves_throw | apply preserves_lift
    | apply preserves_gets | apply preserves_await
    | apply preserves_modify; intros; solve [ auto ]
    | apply preserves_bind; [ | intros ]
    | apply preserves_try_catch; [ | intros ] ].

Ltac frame := repeat frame_step.

(** ** Setters *)

Lemma set_delivered_same s : set_delivered (delivered s ++ []) s = s.
Proof. destruct s; unfold set_delivered; simpl. now rewrite app_nil_r. Qed.

Lemma set_delivered_twice l1 l2 s :
  set_delivered (delivered (set_delivered (delivered s ++ l1) s) ++ l2)
    (set_delivered (delivered s ++ l1) s)
  = set_delivered (delivered s ++ l1 ++ l2) s.
Proof. unfold set_delivered; simpl. now rewrite app_assoc. Qed.

(** ** [notify] *)

Lemma quiet_first_throw obs e :
  quiet obs e = true <-> first_throw obs e = None.
Proof.
  induction obs as [| [k o] rest IH]; simpl; [tauto |].
  unfold throws. destruct (update o e); simpl.
  - exact IH.
  - split; discriminate.
Qed.

Lemma quiet_reached obs e : quiet obs e = true -> reached obs e = obs.
Proof.
  induction obs as [| [k o] rest IH]; simpl; [reflexivity |].
  destruct (throws o e); simpl; [discriminate |].
  intros H. now rewrite IH.
Qed.

Lemma set_unhandled_same s : set_unhandled (unhandled s ++ []) s = s.
Proof. destruct s; unfold set_unhandled; simpl. now rewrite app_nil_r. Qed.

(** The [map] of [notify] calls exactly the reached observers, and
    throws what the first throwing [update] throws, leaving behind the
    rejections of the promises made until then. *)
Lemma call_updates_run made obs e s :
  call_updates made obs e s =
  (match first_throw obs e with
   | Some error => Throw error
   | None => Ok (made ++ settled_before obs e)%list
   end,
   let s1 := set_delivered (delivered s ++ fanout (reached obs e) e) s in
   match first_throw obs e with
   | Some _ =>
       set_unhandled
         (unhandled s ++ rejections (made ++ settled_before obs e)) s1
   | None => s1
   end).
Proof.
  revert made s. induction obs as [| [k o] rest IH]; intros made s.
  - simpl. unfold ret. now rewrite set_delivered_same, app_nil_r.
  - simpl. unfold bind at 1, modify. unfold bind at 1, try_catch, lift.
    unfold throws. destruct (update o e) as [r | error]; simpl.
    + rewrite IH. cbv zeta. rewrite set_delivered_twice. simpl.
      rewrite <- app_assoc. simpl.
      destruct (first_throw rest e); reflexivity.
    + unfold bind, modify, throw. simpl. now rewrite app_nil_r.
Qed.

(** [notify] changes nothing but the record of deliveries and, when an
    [update] throws, the unhandled rejections: the [catch] around
    [Promise.allSettled] is never entered. *)
Lemma notify_run e s :
  notify e s =
  (match first_throw (observers s) e with
   | Some error => Throw error
   | None => Ok tt
   end,
   set_unhandled (unhandled s ++ orphaned (observers s) e)
     (set_delivered (delivered s ++ fanout (reached (observers s) e) e) s)).
Proof.
  unfold notify, bind, gets. rewrite call_updates_run. unfold orphaned.
  destruct (first_throw (observers s) e); simpl; [reflexivity |].
  now rewrite <- (set_unhandled_same (set_delivered _ s)) at 1.
Qed.

Lemma notify_quiet e s :
  quiet (observers s) e = true ->
  notify e s = (Ok tt, set_delivered (delivered s ++ fanout (observers s) e) s).
Proof.
  intros H. rewrite notify_run, (quiet_reached _ _ H). unfold orphaned.
  apply quiet_first_throw in H. rewrite H.
  now rewrite (set_unhandled_same (set_delivered _ s)).
Qed.

Lemma preserves_notify {F} (f : TaskObservable -> F) e :
  (forall v s, f (set_delivered v s) = f s) ->
  (forall v s, f (set_unhandled v s) = f s) ->
  preserves f (notify e).
Proof.
  intros Hd Hu s. unfold exec. rewrite notify_run. cbn [snd].
  now rewrite Hu, Hd.
Qed.

(** ** [handleError] and [handleTaskEvent] *)

Lemma handleError_run error s :
  handleError error s =
  (Ok tt,
   let s1 := set_console (console s ++ ["TaskObserver Error: " ++ error]) s in
   if onError s then set_reported (reported s ++ [error]) s1 else s1).
Proof.
  unfold handleError, bind, modify, gets; simpl. destruct (onError s); reflexivity.
Qed.

Lemma preserves_handleError {F} (f : TaskObservable -> F) error :
  (forall v s, f (set_console v s) = f s) ->
  (forall v s, f (set_reported v s) = f s) ->
  preserves f (handleError error).
Proof.
  intros Hc Hr s. unfold exec. rewrite handleError_run. simpl.
  destruct (onError s); now rewrite ?Hr, ?Hc.
Qed.

(** [handleTaskEvent] catches whatever its body throws. *)
Lemma handleTaskEvent_total d : total (handleTaskEvent d).
Proof.
  intros s. exists tt. unfold outcome, handleTaskEvent, try_catch.
  match goal with |- context [match ?m s with _ => _ end] => destruct (m s) as [[[] | error] s1] end.
  - reflexivity.
  - now rewrite handleError_run.
Qed.

Lemma preserves_handleTaskEvent {F} (f : TaskObservable -> F) d :
  (forall v s, f (set_delivered v s) = f s) ->
  (forall v s, f (set_eventQueue v s) = f s) ->
  (forall v s, f (set_console v s) = f s) ->
  (forall v s, f (set_reported v s) = f s) ->
  (forall v s, f (set_unhandled v s) = f s) ->
  preserves f (handleTaskEvent d).
Proof.
  intros Hd Hq Hc Hr Hu. unfold handleTaskEvent.
  apply preserves_try_catch; [ | intros; now apply preserves_handleError ].
  frame.
  match goal with c : bool |- _ => destruct c end;
    [ now apply preserves_notify | frame ].
Qed.

Lemma handleTaskEvent_nullish d s :
  nullish d = true ->
  exists error,
    get_prop d "type" = Throw error /\
    handleTaskEvent d s = handleError ("Task event handling failed: " ++ error) s.
Proof.
  destruct d; try discriminate; intros _; eexists; split; reflexivity.
Qed.

Lemma handleTaskEvent_connected d s :
  nullish d = false -> isConnected s = true ->
  quiet (observers s) (inbound_event d) = true ->
  handleTaskEvent d s =
  (Ok tt, set_delivered (delivered s ++ fanout (observers s) (inbound_event d)) s).
Proof.
  intros Hn Hc Hq.
  assert (E : handleTaskEvent d s =
              try_catch (notify (inbound_event d))
                (fun error => handleError ("Task event handling failed: " ++ error)) s).
  { destruct d; try discriminate Hn;
      unfold handleTaskEvent, try_catch, bind, lift, gets; simpl; now rewrite Hc. }
  rewrite E. unfold try_catch. now rewrite notify_quiet.
Qed.

Lemma handleTaskEvent_offline d s :
  nullish d = false -> isConnected s = false ->
  handleTaskEvent d s =
  (Ok tt, set_eventQueue (eventQueue s ++ [inbound_event d]) s).
Proof.
  intros Hn Hc.
  destruct d; try discriminate Hn;
    unfold handleTaskEvent, try_catch, bind, lift, gets, modify; simpl;
    now rewrite Hc.
Qed.

(** ** [broadcastEvent] *)

Lemma broadcastEvent_throws e s error :
  first_throw (observers s) e = Some error ->
  broadcastEvent e s =
  (Throw error,
   set_unhandled (unhandled s ++ orphaned (observers s) e)
     (set_delivered (delivered s ++ fanout (reached (observers s) e) e) s)).
Proof.
  intros H. unfold broadcastEvent. apply bind_throw.
  rewrite notify_run. now rewrite H.
Qed.

Lemma broadcastEvent_offline e s :
  isConnected s = false -> quiet (observers s) e = true ->
  broadcastEvent e s =
  (Ok tt,
   set_eventQueue (eventQueue s ++ [e])
     (set_delivered (delivered s ++ fanout (observers s) e) s)).
Proof.
  intros Hc Hq. unfold broadcastEvent.
  rewrite (bind_ok _ _ _ (notify_quiet _ _ Hq)).
  unfold bind, gets, modify; simpl. rewrite Hc.
  destruct (socket s); reflexivity.
Qed.

Lemma broadcastEvent_online e s so :
  socket s = Some so -> isConnected s = true -> quiet (observers s) e = true ->
  broadcastEvent e s =
  (Ok tt,
   set_socket (Some (mkSocket (handlers so) (sent so ++ [message_of e]) (closed so)))
     (set_delivered (delivered s ++ fanout (observers s) e) s)).
Proof.
  intros Hs Hc Hq. unfold broadcastEvent.
  rewrite (bind_ok _ _ _ (notify_quiet _ _ Hq)).
  unfold bind, gets, socket_emit, modify; simpl. rewrite Hs, Hc; simpl.
  now rewrite Hs.
Qed.

Lemma publish_broadcast p now s :
  publish p now s = broadcastEvent (event_of (userId s) (p, now)) s.
Proof. destruct p; reflexivity. Qed.

(** ** [processEventQueue] *)

Lemma preserves_processEventQueue {F} (f : TaskObservable -> F) fuel :
  (forall v s, f (set_delivered v s) = f s) ->
  (forall v s, f (set_eventQueue v s) = f s) ->
  (forall v s, f (set_unhandled v s) = f s) ->
  preserves f (processEventQueue fuel).
Proof.
  intros Hd Hq Hu. induction fuel as [| fuel IH]; simpl; [apply preserves_ret |].
  apply preserves_bind; [apply preserves_gets | intros q].
  apply preserves_bind; [apply preserves_gets | intros c].
  destruct q as [| event q']; [apply preserves_ret |].
  destruct c; [ | apply preserves_ret].
  apply preserves_bind; [apply preserves_modify; intros; apply Hq | intros _].
  apply preserves_bind; [now apply preserves_notify | intros _].
  exact IH.
Qed.

(** With more fuel than queued events the loop ends by itself. *)
Lemma processEventQueue_fuel fuel s :
  List.length (eventQueue s) < fuel ->
  outcome (processEventQueue fuel) s <> Ok None.
Proof.
  revert s. induction fuel as [| fuel IH]; intros s Hlen; [lia |].
  unfold outcome. simpl. unfold bind at 1, gets. unfold bind at 1.
  destruct (eventQueue s) as [| event q'] eqn:Hq; [discriminate |].
  destruct (isConnected s); [ | discriminate].
  unfold bind at 1, modify. unfold bind at 1. rewrite notify_run.
  destruct (first_throw _ event); [discriminate |].
  apply IH. simpl in *. lia.
Qed.

(** The fuel the [connect] listener gives the loop is enough. *)
Lemma connect_drain_terminates s :
  outcome (processEventQueue (S (List.length (eventQueue s)))) s <> Ok None.
Proof. apply processEventQueue_fuel. lia. Qed.

(** While connected, and when no [update] throws, the loop hands every
    queued event to every observer, oldest first, and empties the
    queue. *)
Lemma processEventQueue_drains fuel s :
  isConnected s = true ->
  forallb (quiet (observers s)) (eventQueue s) = true ->
  List.length (eventQueue s) < fuel ->
  processEventQueue fuel s =
  (Ok (Some tt),
   set_eventQueue []
     (set_delivered
        (delivered s ++ flat_map (fanout (observers s)) (eventQueue s)) s)).
Proof.
  revert s. induction fuel as [| fuel IH]; intros s Hc Hq Hlen; [lia |].
  simpl. unfold bind at 1, gets. unfold bind at 1.
  destruct (eventQueue s) as [| event q'] eqn:Hqueue.
  - unfold ret. f_equal. destruct s; simpl in *; subst.
    unfold set_eventQueue, set_delivered; simpl. now rewrite app_nil_r.
  - rewrite Hc. simpl in Hq. apply andb_prop in Hq. destruct Hq as [Hq1 Hq2].
    unfold bind at 1, modify. unfold bind at 1.
    rewrite notify_quiet by exact Hq1.
    rewrite IH; simpl; try assumption; [ | simpl in Hlen; lia].
    unfold set_eventQueue, set_delivered; simpl.
    now rewrite <- app_assoc.
Qed.

(** ** Socket events *)

Lemma run_handler_ok h d now s :
  run_handler h d now s = (Ok tt, exec (run_handler h d now) s).
Proof.
  unfold exec.
  destruct h; simpl; unfold bind, modify, gets, detached; simpl;
    try reflexivity;
    match goal with
    | |- context [match ?m ?s0 with _ => _ end] => destruct (m s0) as [[a | error] s1]
    end; reflexivity.
Qed.

Lemma run_handlers_cons name n h hs d now s :
  run_handlers name ((n, h) :: hs) d now s =
  run_handlers name hs d now
    (if String.eqb n name then exec (run_handler h d now) s else s).
Proof.
  simpl run_handlers. unfold bind.
  destruct (String.eqb n name); [now rewrite run_handler_ok | reflexivity].
Qed.

Lemma fire_wired name d now s :
  wired s ->
  fire name d now s =
  (Ok tt,
   match handler_for name with
   | Some h => exec (run_handler h d now) s
   | None => s
   end).
Proof.
  intros [so [Hs Hh]]. unfold fire, bind, gets. rewrite Hs, Hh.
  rewrite !run_handlers_cons. unfold handler_for.
  change (run_handlers name [] d now) with (@ret unit tt). unfold ret.
  repeat match goal with
         | |- context [String.eqb ?c name] =>
             destruct (String.eqb_spec c name) as [<- | ?];
             [ simpl (String.eqb _ _); reflexivity | ]
         end.
  reflexivity.
Qed.

Lemma fire_unwired name d now s : socket s = None -> fire name d now s = (Ok tt, s).
Proof. intros H. unfold fire, bind, gets. now rewrite H. Qed.

Lemma detached_total {A} (m : M A) s a :
  outcome m s = Ok a -> exec (detached m) s = exec m s.
Proof.
  unfold outcome, exec, detached. destruct (m s) as [[a' | error] s1]; simpl;
    [reflexivity | discriminate].
Qed.

Lemma connect_listener_wired d now s :
  wired s ->
  step (SocketEvent "connect" d now) s = exec (run_handler OnConnect d now) s.
Proof.
  intros Hw. unfold step, exec. simpl perform.
  now rewrite (@fire_wired "connect" d now s Hw).
Qed.


Lemma on_connect_drains d now s :
  forallb (quiet (observers s)) (eventQueue s) = true ->
  exec (run_handler OnConnect d now) s =
  set_eventQueue []
    (set_delivered
       (delivered s ++ flat_map (fanout (observers s)) (eventQueue s))
       (set_isConnected true s)).
Proof.
  intros Hq. unfold exec, run_handler, bind, modify, gets, detached.
  rewrite processEventQueue_drains; simpl; auto.
Qed.

(** ** Sequences of publications *)

Lemma publish_all_cons p now ps s :
  publish_all ((p, now) :: ps) s = publish_all ps (exec (publish p now) s).
Proof. reflexivity. Qed.

Lemma setters_same s :
  set_eventQueue (eventQueue s ++ []) (set_delivered (delivered s ++ []) s) = s.
Proof.
  destruct s; unfold set_eventQueue, set_delivered; simpl.
  now rewrite !app_nil_r.
Qed.

(** Offline, every publication is handed to the observers and queued. *)
Lemma publish_all_offline ps s :
  isConnected s = false ->
  forallb (quiet (observers s)) (map (event_of (userId s)) ps) = true ->
  publish_all ps s =
  set_eventQueue (eventQueue s ++ map (event_of (userId s)) ps)
    (set_delivered
       (delivered s ++ flat_map (fanout (observers s)) (map (event_of (userId s)) ps))
       s).
Proof.
  revert s. induction ps as [| [p now] ps IH]; intros s Hc Hq.
  - simpl. now rewrite setters_same.
  - rewrite publish_all_cons. simpl in Hq. apply andb_prop in Hq.
    destruct Hq as [Hq1 Hq2].
    unfold exec. rewrite publish_broadcast, broadcastEvent_offline by assumption.
    rewrite IH by (simpl; assumption).
    unfold set_eventQueue, set_delivered; simpl.
    now rewrite <- !app_assoc.
Qed.

(** Online, every publication is handed to the observers and emitted. *)
Lemma publish_all_online ps s so :
  socket s = Some so -> isConnected s = true ->
  forallb (quiet (observers s)) (map (event_of (userId s)) ps) = true ->
  publish_all ps s =
  set_socket
    (Some (mkSocket (handlers so)
             (sent so ++ map message_of (map (event_of (userId s)) ps))
             (closed so)))
    (set_delivered
       (delivered s ++ flat_map (fanout (observers s)) (map (event_of (userId s)) ps))
       s).
Proof.
  revert s so. induction ps as [| [p now] ps IH]; intros s so Hs Hc Hq.
  - simpl. destruct s, so; unfold set_socket, set_delivered; simpl in *.
    subst. now rewrite !app_nil_r.
  - rewrite publish_all_cons. simpl in Hq. apply andb_prop in Hq.
    destruct Hq as [Hq1 Hq2].
    unfold exec. rewrite publish_broadcast, (broadcastEvent_online _ _ Hs) by assumption.
    erewrite IH; [ | simpl; reflexivity | simpl; assumption | simpl; assumption ].
    unfold set_socket, set_delivered; simpl.
    now rewrite <- !app_assoc.
Qed.

(** ** What one observer receives *)

Lemma received_app k l1 l2 :
  received k (l1 ++ l2) = (received k l1 ++ received k l2)%list.
Proof. unfold received. now rewrite filter_app, map_app. Qed.

Lemma received_fanout_absent k obs e :
  ~ In k (map fst obs) -> received k (fanout obs e) = [].
Proof.
  induction obs as [| [k' o] rest IH]; simpl; intros H; [reflexivity |].
  unfold received in *. simpl.
  destruct (String.eqb_spec k' k) as [-> | ?]; [tauto |].
  apply IH. tauto.
Qed.

(** A registered observer is handed one event exactly once by one
    fan-out. *)
Lemma received_fanout k o obs e :
  NoDup (map fst obs) -> In (k, o) obs -> received k (fanout obs e) = [e].
Proof.
  induction obs as [| [k' o'] rest IH]; simpl; intros Hnd Hin; [tauto |].
  inversion Hnd as [| ? ? Hnotin Hnd']; subst.
  unfold received in *. simpl.
  destruct Hin as [Heq | Hin].
  - inversion Heq; subst. rewrite String.eqb_refl. simpl. f_equal.
    now apply received_fanout_absent.
  - destruct (String.eqb_spec k' k) as [-> | ?].
    + exfalso. apply Hnotin. now apply (in_map fst) in Hin.
    + now apply IH.
Qed.

Lemma received_fanouts k o obs es :
  NoDup (map fst obs) -> In (k, o) obs ->
  received k (flat_map (fanout obs) es) = es.
Proof.
  intros Hnd Hin. induction es as [| e es IH]; [reflexivity |].
  simpl. rewrite received_app, IH, (@received_fanout k o obs e Hnd Hin).
  reflexivity.
Qed.

Lemma delivered_since_app s s' l :
  delivered s' = (delivered s ++ l)%list -> delivered_since s s' = l.
Proof.
  intros H. unfold delivered_since. rewrite H.
  rewrite skipn_app, skipn_all, Nat.sub_diag. reflexivity.
Qed.

(** ** What each method leaves alone *)

Section Frame.
Context {F : Type} (f : TaskObservable -> F).
Hypothesis f_delivered : forall v s, f (set_delivered v s) = f s.
Hypothesis f_eventQueue : forall v s, f (set_eventQueue v s) = f s.
Hypothesis f_console : forall v s, f (set_console v s) = f s.
Hypothesis f_reported : forall v s, f (set_reported v s) = f s.
Hypothesis f_unhandled : forall v s, f (set_unhandled v s) = f s.

Lemma preserves_handlePresenceUpdate d now :
  preserves f (handlePresenceUpdate d now).
Proof.
  unfold handlePresenceUpdate.
  apply preserves_bind; [apply preserves_lift | intros cur].
  apply preserves_bind; [apply preserves_lift | intros uid].
  now apply preserves_handleTaskEvent.
Qed.

Lemma preserves_message_listeners h d now :
  h = HandleTaskEvent \/ h = HandlePresenceUpdate ->
  preserves f (run_handler h d now).
Proof.
  intros [-> | ->]; simpl; apply preserves_detached; auto.
  - now apply preserves_handleTaskEvent.
  - apply preserves_handlePresenceUpdate.
Qed.

Section Listeners.
Hypothesis f_isConnected : forall v s, f (set_isConnected v s) = f s.

Lemma preserves_run_handler h d now : preserves f (run_handler h d now).
Proof.
  destruct h.
  - cbn [run_handler].
    apply preserves_bind; [now apply preserves_modify | intros _].
    apply preserves_bind; [apply preserves_gets | intros q].
    apply preserves_detached; auto.
    now apply preserves_processEventQueue.
  - simpl. now apply preserves_modify.
  - apply preserves_message_listeners. now left.
  - apply preserves_message_listeners. now right.
Qed.

Lemma preserves_run_handlers name hs d now :
  preserves f (run_handlers name hs d now).
Proof.
  induction hs as [| [n h] hs IH]; simpl; [apply preserves_ret |].
  apply preserves_bind; [ | intros _; exact IH].
  destruct (String.eqb n name);
    [apply preserves_run_handler | apply preserves_ret].
Qed.

(** No socket event, whatever listeners are installed. *)
Lemma preserves_fire name d now : preserves f (fire name d now).
Proof.
  unfold fire. apply preserves_bind; [apply preserves_gets | intros so].
  destruct so; [apply preserves_run_handlers | apply preserves_ret].
Qed.
End Listeners.

Section Emitters.
Hypothesis f_socket :
  forall so snt cl s, socket s = Some so ->
    f (set_socket (Some (mkSocket (handlers so) snt cl)) s) = f s.

Lemma preserves_socket_emit m : preserves f (socket_emit m).
Proof.
  intros s. unfold exec, socket_emit, modify; simpl.
  destruct (socket s) eqn:Hs; [now apply f_socket | reflexivity].
Qed.

Lemma preserves_broadcastEvent e : preserves f (broadcastEvent e).
Proof.
  unfold broadcastEvent.
  apply preserves_bind; [now apply preserves_notify | intros _].
  apply preserves_bind; [apply preserves_gets | intros so].
  apply preserves_bind; [apply preserves_gets | intros c].
  destruct so; [destruct c |]; try apply preserves_socket_emit;
    now apply preserves_modify.
Qed.

Lemma preserves_updatePresence cur now : preserves f (updatePresence cur now).
Proof.
  unfold updatePresence.
  apply preserves_bind; [apply preserves_gets | intros so].
  apply preserves_bind; [apply preserves_gets | intros c].
  apply preserves_bind; [apply preserves_gets | intros uid].
  destruct so; [destruct c |];
    try apply preserves_socket_emit; apply preserves_ret.
Qed.

(** The calls of the local API other than [disconnect]. *)
Lemma preserves_local_calls a :
  (forall v s, f (set_observers v s) = f s) ->
  a <> Disconnect -> (forall name d now, a <> SocketEvent name d now) ->
  preserves f (perform a).
Proof.
  intros f_observers Hnd Hns. destruct a; simpl.
  - now apply preserves_modify.
  - now apply preserves_modify.
  - now apply preserves_notify.
  - apply preserves_bind; [apply preserves_gets | intros uid].
    apply preserves_broadcastEvent.
  - apply preserves_bind; [apply preserves_gets | intros uid].
    apply preserves_broadcastEvent.
  - apply preserves_bind; [apply preserves_gets | intros uid].
    apply preserves_broadcastEvent.
  - apply preserves_updatePresence.
  - congruence.
  - exfalso. now apply (Hns name d now).
Qed.
End Emitters.
End Frame.

Lemma disconnect_run s :
  exec disconnect s =
  set_isConnected false
    (set_eventQueue []
       (set_observers []
          (match socket s with
           | Some so => set_socket (Some (mkSocket (handlers so) (sent so) true)) s
           | None => s
           end))).
Proof. reflexivity. Qed.

(** ** Reachable states *)

Lemma listeners_step a s : listeners (step a s) = listeners s.
Proof.
  assert (Hsock : forall so snt cl s0, socket s0 = Some so ->
            listeners (set_socket (Some (mkSocket (handlers so) snt cl)) s0)
            = listeners s0).
  { intros so snt cl s0 H. unfold listeners. simpl. now rewrite H. }
  unfold step.
  destruct a;
    try (apply preserves_local_calls; intros; solve [reflexivity | auto | discriminate]).
  - simpl perform. rewrite disconnect_run. unfold listeners.
    destruct (socket s) eqn:Hs; simpl; now rewrite ?Hs.
  - simpl perform. apply preserves_fire; reflexivity.
Qed.

Lemma listeners_run acts s : listeners (run acts s) = listeners s.
Proof.
  revert s. induction acts as [| a acts IH]; intros s; [reflexivity |].
  simpl. unfold run in IH. rewrite IH. apply listeners_step.
Qed.

Lemma reachable_wired s : reachable s -> socket s = None \/ wired s.
Proof.
  intros [has_socket [uid [oe [acts ->]]]].
  pose proof (listeners_run acts
    (new_TaskObservable (if has_socket then Some fresh_socket else None) uid oe)) as H.
  unfold listeners in H.
  destruct (socket (run acts _)) as [so |] eqn:Hs; [right | now left].
  destruct has_socket; simpl in H; [ | discriminate].
  exists so. split; [exact Hs | congruence].
Qed.

(** The keys of the observer Map stay distinct. *)
Lemma map_set_keys k v m k' :
  In k' (map fst (map_set k v m)) -> k' = k \/ In k' (map fst m).
Proof.
  induction m as [| [k0 v0] m IH]; simpl.
  - intros [H | []]. now left.
  - destruct (String.eqb_spec k k0) as [-> | ?]; simpl; intros [H | H]; auto.
    destruct (IH H); auto.
Qed.

Lemma map_set_NoDup k v m :
  NoDup (map fst m) -> NoDup (map fst (map_set k v m)).
Proof.
  induction m as [| [k0 v0] m IH]; simpl; intros Hnd.
  - repeat constructor. intros [].
  - inversion Hnd as [| ? ? Hnotin Hnd']; subst.
    destruct (String.eqb_spec k k0) as [-> | Hne]; simpl.
    + now constructor.
    + constructor; [ | now apply IH].
      intros Hin. apply map_set_keys in Hin. destruct Hin; congruence.
Qed.

Lemma remove_first_keys o m k :
  In k (map fst (remove_first o m)) -> In k (map fst m).
Proof.
  induction m as [| [k0 v0] m IH]; simpl; [tauto |].
  destruct (Nat.eqb (obs_ref v0) (obs_ref o)); simpl; intuition.
Qed.

Lemma remove_first_NoDup o m :
  NoDup (map fst m) -> NoDup (map fst (remove_first o m)).
Proof.
  induction m as [| [k0 v0] m IH]; simpl; intros Hnd; [constructor |].
  inversion Hnd as [| ? ? Hnotin Hnd']; subst.
  destruct (Nat.eqb (obs_ref v0) (obs_ref o)); simpl; [assumption |].
  constructor; [ | now apply IH].
  intros Hin. apply Hnotin. eapply remove_first_keys. exact Hin.
Qed.

Lemma observers_step a s :
  observers (step a s) =
  match a with
  | AddObserver observer id => map_set id observer (observers s)
  | RemoveObserver observer => remove_first observer (observers s)
  | Disconnect => []
  | _ => observers s
  end.
Proof.
  unfold step. destruct a; simpl perform; try reflexivity.
  - now apply preserves_notify.
  - apply preserves_bind; [apply preserves_gets | intros uid].
    apply preserves_broadcastEvent; intros; reflexivity.
  - apply preserves_bind; [apply preserves_gets | intros uid].
    apply preserves_broadcastEvent; intros; reflexivity.
  - apply preserves_bind; [apply preserves_gets | intros uid].
    apply preserves_broadcastEvent; intros; reflexivity.
  - apply preserves_updatePresence; intros; reflexivity.
  - apply preserves_fire; reflexivity.
Qed.

Lemma reachable_keys_distinct s : reachable s -> keys_distinct s.
Proof.
  intros [has_socket [uid [oe [acts ->]]]].
  assert (H : forall s0, keys_distinct s0 -> keys_distinct (run acts s0)).
  { induction acts as [| a acts IH]; intros s0 H0; [exact H0 |].
    apply IH. unfold keys_distinct in *. rewrite observers_step.
    destruct a; auto using map_set_NoDup, remove_first_NoDup. constructor. }
  apply H. constructor.
Qed.

(** The observer the application registers, [TaskEventHandler], is an
    [async] function: whatever its callbacks do, its [update] returns a
    promise and never throws. *)
Lemma TaskEventHandler_never_throws ref cb e :
  throws (TaskEventHandler ref cb) e = false.
Proof. reflexivity. Qed.

(** ** Publication while connected (C2) *)

(** For every sequence of publications ([emitTaskCreated],
    [emitTaskUpdated], [emitTaskDeleted]) made while the hub is
    connected, every registered observer is handed exactly the published
    events, each once and in publication order, provided no [update]
    throws synchronously on these events (the promises returned may
    reject). *)
Lemma quiet_publications_received_once_in_order :
  forall (s : TaskObservable) (so : Socket) (ps : list (Publish * Z)),
    socket s = Some so -> isConnected s = true ->
    keys_distinct s ->
    forallb (quiet (observers s)) (map (event_of (userId s)) ps) = true ->
    forall k o, In (k, o) (observers s) ->
      let es := map (event_of (userId s)) ps in
      let got := received k (delivered_since s (publish_all ps s)) in
      got = es /\
      (forall subject, filter (about subject) got = filter (about subject) es) /\
      isConnected (publish_all ps s) = true.
Proof.
  intros s so ps Hs Hc Hk Hq k o Hin es got.
  assert (E : got = es).
  { unfold got. rewrite (@publish_all_online ps s so Hs Hc Hq).
    erewrite delivered_since_app; [ | simpl; reflexivity ].
    exact (received_fanouts k o (observers s) es Hk Hin). }
  split; [exact E | split].
  - intros subject. now rewrite E.
  - now rewrite (@publish_all_online ps s so Hs Hc Hq).
Qed.

(** C2.  The code at an input that breaks the claim: the hub has a
    socket and is connected, the observers "a" and "b" are registered,
    and three events are published.  The [update] of "a" raises, so the
    [map] of [notify] is left each time before "b" is called: "a" is
    handed the three events in publication order and "b", a registered
    subscriber, is handed none of them. *)
Theorem throwing_observer_starves_later_subscriber :
  let s := hub_raising in
  let s' := publish_all three_publications s in
  let es := map (event_of "alice") three_publications in
  sent_of s = [] /\ socket s <> None /\
  isConnected s = true /\ isConnected s' = true /\
  map fst (observers s) = ["a"; "b"] /\
  keys_distinct s /\
  received "a" (delivered_since s s') = es /\
  received "b" (delivered_since s s') = [].
Proof.
  repeat split; try reflexivity.
  - discriminate.
  - unfold keys_distinct. simpl. repeat constructor; simpl; intuition discriminate.
Qed.

(** ** Publication while disconnected (C5) *)

(** C5, as stated, fails: the queue has no capacity.  Five publications
    while disconnected leave five events queued, not [min 5 3], and the
    two oldest are still there. *)
Lemma offline_queue_exceeds_capacity_three :
  let q := eventQueue (publish_all five_publications hub_offline) in
  List.length q = 5 /\
  List.length q <> Nat.min 5 3 /\
  q = map (event_of "alice") five_publications /\
  q <> skipn 2 (map (event_of "alice") five_publications).
Proof.
  simpl. repeat split; try reflexivity; try discriminate.
Qed.

(** C5, amended.  Publishing N events while disconnected appends all N
    of them to the event queue, in publication order: the queue is
    unbounded and nothing is dropped, so it grows by exactly N (for
    observers whose [update] does not throw synchronously). *)
Theorem offline_publications_all_queued :
  forall (s : TaskObservable) (ps : list (Publish * Z)),
    isConnected s = false ->
    forallb (quiet (observers s)) (map (event_of (userId s)) ps) = true ->
    eventQueue (publish_all ps s)
      = (eventQueue s ++ map (event_of (userId s)) ps)%list /\
    List.length (eventQueue (publish_all ps s))
      = List.length (eventQueue s) + List.length ps.
Proof.
  intros s ps Hc Hq. rewrite (publish_all_offline ps s Hc Hq). simpl.
  split; [reflexivity |].
  now rewrite length_app, length_map.
Qed.

Lemma offline_publications_all_queued_witness :
  eventQueue (publish_all five_publications hub_offline)
    = (eventQueue hub_offline ++ map (event_of "alice") five_publications)%list /\
  List.length (eventQueue (publish_all five_publications hub_offline))
    = List.length (eventQueue hub_offline) + List.length five_publications.
Proof.
  apply (@offline_publications_all_queued hub_offline five_publications);
    reflexivity.
Defined.

(** ** The queue on [connect] (C1) *)

(** C1.  The code at the input that breaks the claim: three events are
    published while disconnected, then the socket connects.  The queue
    held the three events in publication order and is empty afterwards,
    but nothing was sent over the socket: [processEventQueue] hands the
    queued events to the local observers (a second time) instead of
    emitting them as [broadcastEvent] does when connected. *)
Theorem connect_replays_queue_without_sending :
  let s1 := publish_all three_publications hub_offline in
  let s2 := step (SocketEvent "connect" JUndefined 4%Z) s1 in
  let es := map (event_of "alice") three_publications in
  eventQueue s1 = es /\
  isConnected s2 = true /\
  eventQueue s2 = [] /\
  sent_of s2 = [] /\
  delivered_since s1 s2 = flat_map (fanout (observers s1)) es /\
  sent_of (publish_all three_publications hub_online) = map message_of es.
Proof.
  repeat split; reflexivity.
Qed.

(** ** Failing observers (C3, C4) *)

(** An [update] that returns a rejecting promise stops nothing: every
    observer is called and the publication resolves. *)
Lemma rejections_do_not_block p now s :
  quiet (observers s) (event_of (userId s) (p, now)) = true ->
  outcome (publish p now) s = Ok tt /\
  delivered (exec (publish p now) s)
    = (delivered s ++ fanout (observers s) (event_of (userId s) (p, now)))%list.
Proof.
  intros Hq. unfold outcome, exec. rewrite publish_broadcast.
  destruct (isConnected s) eqn:Hc.
  - destruct (socket s) as [so |] eqn:Hs.
    + rewrite (@broadcastEvent_online _ s so Hs Hc Hq). split; reflexivity.
    + unfold broadcastEvent. rewrite (bind_ok _ _ _ (notify_quiet _ _ Hq)).
      unfold bind, gets, modify; simpl. rewrite Hs. split; reflexivity.
  - rewrite (broadcastEvent_offline _ _ Hc Hq). split; reflexivity.
Qed.

(** C3.  The code at the input that breaks the claim: the observer
    registered first has a plain [update] that raises.  The [map] of
    [notify] is left by the exception, so the observer registered after
    it is never called, on this or on any later publication, and the
    publication itself fails with the observer's error; the event is
    neither sent nor queued. *)
Theorem raising_observer_blocks_the_others :
  let s := hub_raising in
  let s1 := exec (emitTaskCreated task1 1%Z) s in
  outcome (emitTaskCreated task1 1%Z) s = Throw "Error: boom" /\
  received "a" (delivered s1) = [event_of "alice" (PubCreated task1, 1%Z)] /\
  received "b" (delivered s1) = [] /\
  sent_of s1 = [] /\ eventQueue s1 = [] /\
  received "b" (delivered (publish_all three_publications s)) = [].
Proof.
  repeat split; reflexivity.
Qed.

(** No publication ever reaches [handleError]. *)
Lemma publish_reports_nothing p now s :
  reported (exec (publish p now) s) = reported s /\
  console (exec (publish p now) s) = console s.
Proof.
  unfold exec. rewrite publish_broadcast.
  split; apply preserves_broadcastEvent; reflexivity.
Qed.

(** C4.  The code at the input that breaks the claim: [onError] is
    configured, the hub is connected, and one observer's [update]
    returns a promise that rejects.  The publication calls that
    observer, and neither [onError] nor [console.error] hears of the
    failure: [Promise.allSettled] never rejects, so the [catch] of
    [notify] that calls [handleError] is never entered. *)
Theorem rejected_update_is_not_reported :
  let e := event_of "alice" (PubCreated task1, 1%Z) in
  let s1 := exec (emitTaskCreated task1 1%Z) hub_online in
  onError hub_online = true /\
  update (rejecting 2) e = Ok (ReturnsPromise (Rejected "Error: boom")) /\
  received "b" (delivered s1) = [e] /\
  reported s1 = [] /\ console s1 = [] /\ unhandled s1 = [].
Proof.
  repeat split; reflexivity.
Qed.

(** ** Inbound messages (C6) *)

(** What [handleTaskEvent] delivers or queues for a value that is not
    [null] or [undefined], whatever the observers do. *)
Lemma handleTaskEvent_effect d s :
  nullish d = false ->
  let e := inbound_event d in
  let s' := exec (handleTaskEvent d) s in
  delivered s'
    = (delivered s ++ if isConnected s then fanout (reached (observers s) e) e else [])%list /\
  eventQueue s' = (eventQueue s ++ if isConnected s then [] else [e])%list.
Proof.
  intros Hn e s'. subst s'. unfold exec.
  destruct (isConnected s) eqn:Hc.
  - assert (E : handleTaskEvent d s =
                try_catch (notify e)
                  (fun error => handleError ("Task event handling failed: " ++ error)) s).
    { destruct d; try discriminate Hn;
        unfold handleTaskEvent, try_catch, bind, lift, gets; simpl; now rewrite Hc. }
    rewrite E. unfold try_catch. rewrite notify_run.
    destruct (first_throw (observers s) e); simpl.
    + rewrite handleError_run. simpl. destruct (onError s); simpl;
        now rewrite app_nil_r.
    + now rewrite app_nil_r.
  - rewrite (handleTaskEvent_offline _ _ Hn Hc). simpl. now rewrite app_nil_r.
Qed.




(** ** The connection state (C7, C9) *)

Lemma isConnected_run_handler h d now s :
  isConnected (exec (run_handler h d now) s) =
  match h with
  | OnConnect => true
  | OnDisconnect => false
  | _ => isConnected s
  end.
Proof.
  destruct h.
  - cbn [run_handler]. unfold exec, bind at 1, modify. unfold bind at 1, gets.
    change (isConnected (exec (detached (processEventQueue
              (S (List.length (eventQueue (set_isConnected true s))))))
              (set_isConnected true s)) = true).
    rewrite (@preserves_detached _ isConnected); try reflexivity.
    now apply preserves_processEventQueue.
  - reflexivity.
  - apply preserves_message_listeners; auto.
  - apply preserves_message_listeners; auto.
Qed.

Lemma handler_for_connect name :
  handler_for name = Some OnConnect -> name = "connect".
Proof.
  unfold handler_for.
  repeat match goal with
         | |- context [String.eqb ?c name] =>
             destruct (String.eqb_spec c name) as [<- | ?]; [easy |]
         end.
  discriminate.
Qed.

Lemma handler_for_disconnect name :
  handler_for name = Some OnDisconnect -> name = "disconnect".
Proof.
  unfold handler_for.
  repeat match goal with
         | |- context [String.eqb ?c name] =>
             destruct (String.eqb_spec c name) as [<- | ?]; [easy |]
         end.
  discriminate.
Qed.

(** C7, as stated, fails: the first [connect] of a new hub takes the
    connection state from [Disconnected] straight to [Connected], which
    is not a transition of the specification; no state in between
    exists. *)
Lemma connect_skips_connecting :
  let s' := step (SocketEvent "connect" JUndefined 0%Z) hub0 in
  reachable hub0 /\
  connectionState hub0 = Disconnected /\
  connectionState s' = Connected /\
  spec_transition (connectionState hub0) (connectionState s') = false.
Proof.
  split; [ | repeat split; reflexivity ].
  exists true, "alice", true, []. reflexivity.
Qed.

(** C7, amended.  In every reachable state the connection state is
    [Disconnected] or [Connected], never [Connecting], and one step
    changes it only from [Disconnected] to [Connected], on the socket's
    [connect] event, or from [Connected] to [Disconnected], on the
    socket's [disconnect] event or a call of [disconnect()]. *)
Theorem connection_state_transitions :
  forall (s : TaskObservable) (a : Action),
    reachable s ->
    let c := connectionState s in
    let c' := connectionState (step a s) in
    c' <> Connecting /\
    (c' = c
     \/ (c = Disconnected /\ c' = Connected /\
         exists d now, a = SocketEvent "connect" d now)
     \/ (c = Connected /\ c' = Disconnected /\
         (a = Disconnect \/ exists d now, a = SocketEvent "disconnect" d now))).
Proof.
  intros s a Hr c c'. split.
  { unfold c', connectionState. destruct (isConnected (step a s)); discriminate. }
  assert (Hlocal : a <> Disconnect ->
                   (forall name d now, a <> SocketEvent name d now) -> c' = c).
  { intros H1 H2. unfold c', c, connectionState, step.
    rewrite (@preserves_local_calls _ isConnected); auto. }
  destruct a; try (left; apply Hlocal; intros; discriminate).
  - (* disconnect() *)
    unfold c', c, connectionState, step. simpl perform. rewrite disconnect_run.
    simpl. destruct (isConnected s); [right; right | left]; auto.
  - (* a socket event *)
    unfold c', c, connectionState, step. simpl perform.
    destruct (reachable_wired Hr) as [Hnone | Hw].
    + unfold exec. rewrite (fire_unwired _ _ _ _ Hnone). now left.
    + unfold exec. rewrite (@fire_wired name d now s Hw). cbn [snd].
      destruct (handler_for name) as [h |] eqn:Hh; [ | now left].
      rewrite isConnected_run_handler.
      destruct h; try now left.
      * apply handler_for_connect in Hh. subst name.
        destruct (isConnected s); [now left | right; left]. eauto.
      * apply handler_for_disconnect in Hh. subst name.
        destruct (isConnected s); [right; right | now left].
        repeat split. right. eauto.
Qed.

Lemma connection_state_transitions_witness :
  let a := SocketEvent "connect" JUndefined 0%Z in
  let c := connectionState hub0 in
  let c' := connectionState (step a hub0) in
  c' <> Connecting /\
  (c' = c
   \/ (c = Disconnected /\ c' = Connected /\
       exists d now, a = SocketEvent "connect" d now)
   \/ (c = Connected /\ c' = Disconnected /\
       (a = Disconnect \/ exists d now, a = SocketEvent "disconnect" d now))).
Proof.
  apply (@connection_state_transitions hub0 (SocketEvent "connect" JUndefined 0%Z)).
  exists true, "alice", true, []. reflexivity.
Defined.

(** C9, as stated, fails: the socket's [disconnect] takes a connected
    hub with two observers to [Disconnected] and no event at all is
    handed to them, queued or sent. *)
Lemma disconnect_delivers_no_presence_event :
  let s' := step (SocketEvent "disconnect" JUndefined 9%Z) hub_online in
  connectionState hub_online = Connected /\
  connectionState s' = Disconnected /\
  List.length (observers s') = 2 /\
  delivered_since hub_online s' = [] /\
  eventQueue s' = [] /\ sent_of s' = [].
Proof.
  repeat split; reflexivity.
Qed.

(** C9, amended.  On a transition of the transport to [Disconnected]
    no presence event is emitted: the [disconnect] listener only clears
    the connected flag, nothing is handed to an observer, queued or
    sent; a call of [disconnect()] hands nothing to an observer
    either. *)
Theorem disconnect_only_clears_the_flag :
  forall (s : TaskObservable) (d : JsVal) (now : Z),
    wired s ->
    let s' := step (SocketEvent "disconnect" d now) s in
    s' = set_isConnected false s /\
    delivered s' = delivered s /\ eventQueue s' = eventQueue s /\
    sent_of s' = sent_of s /\
    delivered (step Disconnect s) = delivered s.
Proof.
  intros s d now Hw s'.
  assert (E : s' = set_isConnected false s).
  { unfold s', step, exec. simpl perform.
    now rewrite (@fire_wired "disconnect" d now s Hw). }
  split; [exact E |]. rewrite E. repeat split.
  unfold step. simpl perform. rewrite disconnect_run. simpl.
  destruct (socket s); reflexivity.
Qed.

Lemma disconnect_only_clears_the_flag_witness :
  let s' := step (SocketEvent "disconnect" JUndefined 9%Z) hub_online in
  s' = set_isConnected false hub_online /\
  delivered s' = delivered hub_online /\ eventQueue s' = eventQueue hub_online /\
  sent_of s' = sent_of hub_online /\
  delivered (step Disconnect hub_online) = delivered hub_online.
Proof.
  apply (@disconnect_only_clears_the_flag hub_online JUndefined 9%Z).
  eexists. split; reflexivity.
Defined.

(** The event a [user:presence] message becomes.  [handleTaskEvent]
    reads [payload] from the event [handlePresenceUpdate] built, which
    has none: the presence record is not passed on. *)
Lemma presence_update_event fields now s :
  isConnected s = true ->
  let cur := assoc "currentTaskId" fields in
  let e := mkTaskEvent (JStr "USER_PRESENCE_UPDATED")
             (if truthy cur then cur else JStr "") (assoc "userId" fields)
             (DateNow now) JUndefined in
  quiet (observers s) e = true ->
  handlePresenceUpdate (JObj fields) now s
  = (Ok tt, set_delivered (delivered s ++ fanout (observers s) e) s).
Proof.
  intros Hc cur e Hq. unfold handlePresenceUpdate, bind, lift. simpl get_prop.
  cbv iota beta.
  now rewrite handleTaskEvent_connected.
Qed.

(** ** What a step sends *)





(** ** An offline publication and the next [connect] (C10) *)

Lemma wired_listeners s :
  wired s <->
  listeners s = Some [("connect", OnConnect);
                      ("disconnect", OnDisconnect);
                      ("task:updated", HandleTaskEvent);
                      ("task:created", HandleTaskEvent);
                      ("task:deleted", HandleTaskEvent);
                      ("user:presence", HandlePresenceUpdate)].
Proof.
  unfold wired, listeners. split.
  - intros [so [Hs Hh]]. rewrite Hs. simpl. now rewrite Hh.
  - destruct (socket s) as [so |]; simpl; [ | discriminate].
    intros H. exists so. split; [reflexivity | congruence].
Qed.

Lemma wired_step a s : wired s -> wired (step a s).
Proof. rewrite !wired_listeners, listeners_step. auto. Qed.

Lemma wired_run acts s : wired s -> wired (run acts s).
Proof. rewrite !wired_listeners, listeners_run. auto. Qed.

Lemma handleTaskEvent_queue d s :
  exists more, eventQueue (exec (handleTaskEvent d) s) = (eventQueue s ++ more)%list.
Proof.
  destruct (nullish d) eqn:Hn.
  - destruct (handleTaskEvent_nullish d s Hn) as [error [_ E]].
    exists []. unfold exec. rewrite E, handleError_run. simpl.
    destruct (onError s); simpl; now rewrite app_nil_r.
  - destruct (handleTaskEvent_effect d s Hn) as [_ H]. eexists. exact H.
Qed.

Lemma listener_queue h d now s :
  h <> OnConnect ->
  exists more,
    eventQueue (exec (run_handler h d now) s) = (eventQueue s ++ more)%list.
Proof.
  intros Hh. destruct h; [congruence | | | ].
  - exists []. simpl. now rewrite app_nil_r.
  - cbn [run_handler].
    destruct (handleTaskEvent_total d s) as [[] Ht].
    rewrite (detached_total _ _ Ht). apply handleTaskEvent_queue.
  - cbn [run_handler]. destruct (nullish d) eqn:Hn.
    + exists []. destruct d; try discriminate Hn; simpl; now rewrite app_nil_r.
    + assert (E : exists d', handlePresenceUpdate d now s = handleTaskEvent d' s).
      { destruct d; try discriminate Hn; eexists; reflexivity. }
      destruct E as [d' E].
      destruct (handleTaskEvent_total d' s) as [[] Ht].
      assert (Ht' : outcome (handlePresenceUpdate d now) s = Ok tt).
      { unfold outcome in *. now rewrite E. }
      rewrite (detached_total _ _ Ht'). unfold exec. rewrite E.
      apply handleTaskEvent_queue.
Qed.

Lemma publish_queue p now s :
  isConnected s = false ->
  exists more,
    eventQueue (exec (publish p now) s) = (eventQueue s ++ more)%list.
Proof.
  intros Hc. unfold exec. rewrite publish_broadcast.
  destruct (first_throw (observers s) (event_of (userId s) (p, now)))
    as [error |] eqn:Hf.
  - exists []. rewrite (broadcastEvent_throws _ _ Hf). simpl. now rewrite app_nil_r.
  - apply quiet_first_throw in Hf. eexists.
    rewrite (broadcastEvent_offline _ _ Hc Hf). reflexivity.
Qed.

(** A step other than [disconnect()] and the socket's [connect] keeps
    a disconnected hub disconnected and only adds to its queue. *)
Lemma offline_step a s :
  wired s -> isConnected s = false -> keeps_offline a = true ->
  isConnected (step a s) = false /\
  exists more, eventQueue (step a s) = (eventQueue s ++ more)%list.
Proof.
  intros Hw Hc Hk.
  assert (Hlocal_c : a <> Disconnect ->
                     (forall name d now, a <> SocketEvent name d now) ->
                     isConnected (step a s) = false).
  { intros H1 H2. unfold step.
    rewrite (@preserves_local_calls _ isConnected); auto. }
  assert (Hnil : forall s', eventQueue s' = eventQueue s ->
                   exists more, eventQueue s' = (eventQueue s ++ more)%list).
  { intros s' H. exists []. now rewrite app_nil_r. }
  destruct a; simpl in Hk; try discriminate Hk.
  - split; [apply Hlocal_c; intros; discriminate | now apply Hnil].
  - split; [apply Hlocal_c; intros; discriminate | now apply Hnil].
  - split; [apply Hlocal_c; intros; discriminate | ].
    apply Hnil. unfold step. simpl perform. apply preserves_notify; reflexivity.
  - split; [apply Hlocal_c; intros; discriminate | ].
    apply (publish_queue (PubCreated task) now s Hc).
  - split; [apply Hlocal_c; intros; discriminate | ].
    apply (publish_queue (PubUpdated task) now s Hc).
  - split; [apply Hlocal_c; intros; discriminate | ].
    apply (publish_queue (PubDeleted tid) now s Hc).
  - split; [apply Hlocal_c; intros; discriminate | ].
    apply Hnil. unfold step. simpl perform.
    apply preserves_updatePresence; intros; reflexivity.
  - unfold step, exec. simpl perform. rewrite (@fire_wired name d now s Hw).
    cbn [snd]. destruct (handler_for name) as [h |] eqn:Hh.
    + assert (Hne : h <> OnConnect).
      { intros ->. apply handler_for_connect in Hh. subst name.
        discriminate Hk. }
      split; [ | now apply listener_queue].
      rewrite isConnected_run_handler. destruct h; congruence.
    + split; [exact Hc | now apply Hnil].
Qed.

Lemma offline_run acts s :
  wired s -> isConnected s = false -> forallb keeps_offline acts = true ->
  isConnected (run acts s) = false /\
  exists more, eventQueue (run acts s) = (eventQueue s ++ more)%list.
Proof.
  revert s. induction acts as [| a acts IH]; intros s Hw Hc Hk.
  - split; [exact Hc | exists []; simpl; now rewrite app_nil_r].
  - simpl in Hk. apply andb_prop in Hk. destruct Hk as [Ha Hk].
    destruct (offline_step a Hw Hc Ha) as [Hc1 [m1 Hq1]].
    destruct (IH (step a s) (wired_step a Hw) Hc1 Hk) as [Hc2 [m2 Hq2]].
    change (run (a :: acts) s) with (run acts (step a s)).
    split; [exact Hc2 |]. exists (m1 ++ m2)%list.
    now rewrite Hq2, Hq1, app_assoc.
Qed.

(** C10, as stated, fails: an event is published while the hub is not
    connected, [disconnect()] is called, an observer registers again
    and the socket connects.  [disconnect()] emptied the queue, so the
    event, delivered at publication time, is not delivered a second
    time. *)
Lemma disconnect_before_connect_discards_the_event :
  let e := event_of "alice" (PubCreated task1, 1%Z) in
  let s1 := exec (publish (PubCreated task1) 1%Z) hub_offline in
  let s3 := run [Disconnect; AddObserver (recorder 1) "a";
                 SocketEvent "connect" JUndefined 2%Z] s1 in
  isConnected hub_offline = false /\
  received "a" (delivered_since hub_offline s1) = [e] /\
  eventQueue s1 = [e] /\
  isConnected s3 = true /\
  map fst (observers s3) = ["a"] /\
  delivered_since s1 s3 = [].
Proof.
  repeat split; reflexivity.
Qed.

(** C10, amended.  An event published while the hub is not connected is
    handed to every observer at once and is also appended to the event
    queue.  It stays queued through any later calls and socket events
    other than [disconnect()] and the socket's [connect]; when the
    socket then connects, the queue, that event included, is replayed
    to every observer registered at that moment, so the event is
    delivered a second time.  For observers whose [update] does not
    throw synchronously on the event when it is published and on the
    queued events when they are replayed. *)
Theorem offline_publication_replayed_on_next_connect :
  forall (s : TaskObservable) (p : Publish) (now : Z)
         (acts : list Action) (d : JsVal) (cnow : Z),
    wired s -> isConnected s = false ->
    let e := event_of (userId s) (p, now) in
    quiet (observers s) e = true ->
    forallb keeps_offline acts = true ->
    let s1 := exec (publish p now) s in
    let s2 := run acts s1 in
    forallb (quiet (observers s2)) (eventQueue s2) = true ->
    let s3 := step (SocketEvent "connect" d cnow) s2 in
    delivered s1 = (delivered s ++ fanout (observers s) e)%list /\
    eventQueue s1 = (eventQueue s ++ [e])%list /\
    isConnected s2 = false /\
    (exists more, eventQueue s2 = (eventQueue s ++ e :: more)%list) /\
    delivered s3
      = (delivered s2 ++ flat_map (fanout (observers s2)) (eventQueue s2))%list /\
    eventQueue s3 = [] /\ isConnected s3 = true.
Proof.
  intros s p now acts d cnow Hw Hc e Hq Hk s1 s2 Hq2 s3.
  assert (E1 : s1 = set_eventQueue (eventQueue s ++ [e])
                      (set_delivered (delivered s ++ fanout (observers s) e) s)).
  { unfold s1, exec. now rewrite publish_broadcast, broadcastEvent_offline. }
  assert (Hw1 : wired s1) by (rewrite E1; exact Hw).
  assert (Hc1 : isConnected s1 = false) by (rewrite E1; exact Hc).
  destruct (offline_run acts Hw1 Hc1 Hk) as [Hc2 [more Hmore]].
  fold s2 in Hc2, Hmore.
  assert (Hw2 : wired s2) by now apply wired_run.
  assert (E3 : s3 = set_eventQueue []
                      (set_delivered
                         (delivered s2
                            ++ flat_map (fanout (observers s2)) (eventQueue s2))
                         (set_isConnected true s2))).
  { unfold s3. rewrite (connect_listener_wired d cnow Hw2).
    now apply on_connect_drains. }
  split; [now rewrite E1 | split; [now rewrite E1 | split; [exact Hc2 |] ] ].
  split.
  - exists more. rewrite Hmore, E1. simpl. now rewrite <- app_assoc.
  - rewrite E3. repeat split.
Qed.

Lemma offline_publication_replayed_on_next_connect_witness :
  let s := hub_offline in
  let e := event_of (userId s) (PubCreated task1, 1%Z) in
  let acts := [EmitTaskDeleted "t2" 2%Z; AddObserver (recorder 3) "c";
               SocketEvent "task:updated" (JObj []) 3%Z;
               UpdatePresence None 4%Z;
               SocketEvent "disconnect" JUndefined 5%Z] in
  let s1 := exec (publish (PubCreated task1) 1%Z) s in
  let s2 := run acts s1 in
  let s3 := step (SocketEvent "connect" JUndefined 6%Z) s2 in
  delivered s1 = (delivered s ++ fanout (observers s) e)%list /\
  eventQueue s1 = (eventQueue s ++ [e])%list /\
  isConnected s2 = false /\
  (exists more, eventQueue s2 = (eventQueue s ++ e :: more)%list) /\
  delivered s3
    = (delivered s2 ++ flat_map (fanout (observers s2)) (eventQueue s2))%list /\
  eventQueue s3 = [] /\ isConnected s3 = true.
Proof.
  apply (@offline_publication_replayed_on_next_connect hub_offline
           (PubCreated task1) 1%Z
           [EmitTaskDeleted "t2" 2%Z; AddObserver (recorder 3) "c";
            SocketEvent "task:updated" (JObj []) 3%Z;
            UpdatePresence None 4%Z;
            SocketEvent "disconnect" JUndefined 5%Z] JUndefined 6%Z).
  - eexists. split; reflexivity.
  - reflexivity.
  - reflexivity.
  - reflexivity.
  - reflexivity.
Defined.

(** ** Inbound events stay local (C8) *)



(** * Further properties *)

(** ** The observer registry: [addObserver], [removeObserver] *)

Lemma map_set_fresh k v m :
  ~ In k (map fst m) -> map_set k v m = (m ++ [(k, v)])%list.
Proof.
  induction m as [| [k0 v0] m IH]; simpl; intros H; [reflexivity |].
  destruct (String.eqb_spec k k0) as [-> | ?]; [tauto |].
  rewrite IH; tauto.
Qed.

Lemma map_set_present k v m :
  In k (map fst m) -> map fst (map_set k v m) = map fst m.
Proof.
  induction m as [| [k0 v0] m IH]; simpl; intros H; [tauto |].
  destruct (String.eqb_spec k k0) as [-> | Hne]; simpl; [reflexivity |].
  f_equal. apply IH. destruct H; congruence.
Qed.

Lemma map_get_set k v m k' :
  map_get k' (map_set k v m) = if String.eqb k' k then Some v else map_get k' m.
Proof.
  induction m as [| [k0 v0] m IH]; simpl.
  - reflexivity.
  - destruct (String.eqb_spec k k0) as [-> | Hne]; simpl.
    + destruct (String.eqb k' k0); reflexivity.
    + rewrite IH. destruct (String.eqb_spec k' k0) as [-> | ?];
        destruct (String.eqb_spec k0 k); congruence.
Qed.

Lemma remove_first_last observer m k :
  forallb (fun ko => negb (same_observer observer ko)) m = true ->
  remove_first observer (m ++ [(k, observer)]) = m.
Proof.
  induction m as [| [k0 v0] m IH]; simpl; intros H.
  - now rewrite Nat.eqb_refl.
  - apply andb_prop in H. destruct H as [H1 H2]. unfold same_observer in H1.
    simpl in H1. apply negb_true_iff in H1. rewrite H1. now rewrite IH.
Qed.

(** X1.  [addObserver(observer, id)] makes [id] map to [observer] and
    leaves every other id as it was.  When [id] was already registered
    the entry keeps its place and the number of observers does not
    change: the observer it held is replaced; a new [id] is added after
    the others. *)
Theorem addObserver_sets_the_id :
  forall (s : TaskObservable) (observer : Observer) (id : string),
    let m := observers s in
    let m' := observers (step (AddObserver observer id) s) in
    map_get id m' = Some observer /\
    (forall id', id' <> id -> map_get id' m' = map_get id' m) /\
    (In id (map fst m) -> map fst m' = map fst m) /\
    (~ In id (map fst m) -> m' = (m ++ [(id, observer)])%list).
Proof.
  intros s observer k m m'. unfold m'. rewrite observers_step. fold m.
  repeat split.
  - rewrite map_get_set. now rewrite String.eqb_refl.
  - intros k' Hne. rewrite map_get_set.
    destruct (String.eqb_spec k' k); congruence.
  - apply map_set_present.
  - apply map_set_fresh.
Qed.

(** X2.  Registering an observer that is not yet registered, under an
    id that is not yet used, and removing it again gives back the hub as
    it was. *)
Theorem addObserver_then_removeObserver :
  forall (s : TaskObservable) (observer : Observer) (id : string),
    ~ In id (map fst (observers s)) ->
    forallb (fun ko => negb (same_observer observer ko)) (observers s) = true ->
    run [AddObserver observer id; RemoveObserver observer] s = s.
Proof.
  intros s observer k Hk Ho.
  change (set_observers
            (remove_first observer (map_set k observer (observers s)))
            (set_observers (map_set k observer (observers s)) s) = s).
  unfold set_observers at 1. simpl.
  rewrite (map_set_fresh _ _ _ Hk), (remove_first_last _ _ _ Ho).
  destruct s; reflexivity.
Qed.

Lemma addObserver_then_removeObserver_witness :
  run [AddObserver (recorder 7) "c"; RemoveObserver (recorder 7)] hub_online
  = hub_online.
Proof.
  apply (@addObserver_then_removeObserver hub_online (recorder 7) "c").
  - simpl. intuition discriminate.
  - reflexivity.
Defined.

(** X3.  [removeObserver(observer)] removes exactly one registration of
    [observer], the first in the Map's order, when there is one, and
    never touches the registrations of other observers: an observer that
    was registered under two ids is still registered under the second
    one afterwards. *)
Theorem removeObserver_removes_first_registration :
  forall (s : TaskObservable) (observer : Observer),
    let m := observers s in
    let m' := observers (step (RemoveObserver observer) s) in
    filter (same_observer observer) m' = tl (filter (same_observer observer) m) /\
    filter (fun ko => negb (same_observer observer ko)) m'
      = filter (fun ko => negb (same_observer observer ko)) m /\
    List.length m'
      = List.length m - (if existsb (same_observer observer) m then 1 else 0).
Proof.
  intros s observer m m'. unfold m'. rewrite observers_step. fold m.
  clearbody m. clear.
  induction m as [| [k0 v0] m [IH1 [IH2 IH3]]]; simpl; [auto |].
  assert (Es : same_observer observer (k0, v0)
               = Nat.eqb (obs_ref v0) (obs_ref observer)) by reflexivity.
  rewrite Es.
  destruct (Nat.eqb (obs_ref v0) (obs_ref observer)) eqn:E; simpl.
  - repeat split. lia.
  - rewrite ?Es. simpl. rewrite IH1, IH2, IH3. repeat split.
    destruct (existsb (same_observer observer) m) eqn:Ex; [ | lia].
    destruct m; [discriminate | simpl; lia].
Qed.

(** ** [disconnect], [updatePresence], [getObserverMetrics] *)

Lemma wired_after_disconnect s : wired s -> wired (step Disconnect s).
Proof.
  intros [so [Hs Hh]]. unfold step. simpl perform. rewrite disconnect_run.
  rewrite Hs. eexists. split; [reflexivity | exact Hh].
Qed.

(** X4.  [disconnect()] empties the registry and the queue and clears
    the connected flag, so the metrics read zero; it sends and delivers
    nothing.  It does not remove the socket listeners: if the socket
    fires [connect] afterwards, the hub marks itself connected again. *)
Theorem disconnect_clears_but_keeps_listening :
  forall (s : TaskObservable) (d : JsVal) (now cnow : Z),
    wired s ->
    let s1 := step Disconnect s in
    getObserverMetrics now s1 = mkObserverMetrics 0 0 false 0%Z /\
    sent_of s1 = sent_of s /\ delivered s1 = delivered s /\
    listeners s1 = listeners s /\
    isConnected (step (SocketEvent "connect" d cnow) s1) = true.
Proof.
  intros s d now cnow Hw s1.
  assert (Hw1 : wired s1) by now apply wired_after_disconnect.
  assert (E : s1 = exec disconnect s) by reflexivity.
  rewrite disconnect_run in E.
  split; [ | split; [ | split; [ | split ] ] ].
  - rewrite E. reflexivity.
  - rewrite E. unfold sent_of. simpl. destruct (socket s) eqn:Hs; simpl; now rewrite ?Hs.
  - rewrite E. simpl. destruct (socket s); reflexivity.
  - apply listeners_step.
  - unfold step, exec. simpl perform.
    rewrite (@fire_wired "connect" d cnow s1 Hw1).
    change (handler_for "connect") with (Some OnConnect). cbn [snd].
    now rewrite isConnected_run_handler.
Qed.

Lemma disconnect_clears_but_keeps_listening_witness :
  let s1 := step Disconnect hub_online in
  getObserverMetrics 5%Z s1 = mkObserverMetrics 0 0 false 0%Z /\
  sent_of s1 = sent_of hub_online /\ delivered s1 = delivered hub_online /\
  listeners s1 = listeners hub_online /\
  isConnected (step (SocketEvent "connect" JUndefined 6%Z) s1) = true.
Proof.
  apply (@disconnect_clears_but_keeps_listening hub_online JUndefined 5%Z 6%Z).
  eexists. split; reflexivity.
Defined.

(** X5.  After [disconnect()] a publication still succeeds, but it
    reaches no observer and is not sent: it is only put on the (emptied)
    queue. *)
Theorem publication_after_disconnect_is_only_queued :
  forall (s : TaskObservable) (p : Publish) (now : Z),
    let s1 := step Disconnect s in
    let s2 := exec (publish p now) s1 in
    outcome (publish p now) s1 = Ok tt /\
    delivered s2 = delivered s /\
    eventQueue s2 = [event_of (userId s) (p, now)] /\
    sent_of s2 = sent_of s.
Proof.
  intros s p now s1 s2.
  assert (E : s1 = exec disconnect s) by reflexivity.
  rewrite disconnect_run in E.
  assert (Hc : isConnected s1 = false) by now rewrite E.
  assert (Ho : observers s1 = []) by now rewrite E.
  assert (Hq : quiet (observers s1) (event_of (userId s1) (p, now)) = true)
    by now rewrite Ho.
  assert (Hu : userId s1 = userId s).
  { rewrite E. simpl. destruct (socket s); reflexivity. }
  unfold s2, outcome, exec.
  rewrite publish_broadcast, (broadcastEvent_offline _ _ Hc Hq).
  rewrite Ho, Hu. cbn [fst snd fanout map]. unfold sent_of.
  cbn [delivered eventQueue socket set_eventQueue set_delivered].
  rewrite app_nil_r. rewrite E. simpl.
  destruct (socket s) eqn:Hs; simpl; rewrite ?Hs; auto.
Qed.

(** X6.  [updatePresence] sends one [user:presence] record, with the
    hub's user id and [isOnline = true], when the hub has a socket and
    is connected; otherwise it does nothing at all.  In both cases
    nothing is queued or delivered, so a presence update made while
    disconnected is never sent later. *)
Theorem updatePresence_sends_or_drops :
  forall (s : TaskObservable) (cur : option string) (now : Z),
    let s' := step (UpdatePresence cur now) s in
    sent_of s' =
      (sent_of s ++
       match socket s with
       | Some _ =>
           if isConnected s
           then [EmitUserPresence (mkUserPresence (userId s) true cur (DateNow now))]
           else []
       | None => []
       end)%list /\
    eventQueue s' = eventQueue s /\ delivered s' = delivered s /\
    observers s' = observers s /\ isConnected s' = isConnected s /\
    (isConnected s = false -> s' = s).
Proof.
  intros s cur now s'. unfold s', step, exec. simpl perform.
  unfold updatePresence, bind, gets, socket_emit, modify, sent_of; simpl.
  destruct (socket s) as [so |] eqn:Hs; simpl.
  - destruct (isConnected s) eqn:Hc; simpl; rewrite ?Hs; simpl;
      rewrite ?app_nil_r; repeat split; auto; discriminate.
  - rewrite Hs. repeat split; auto.
Qed.

(** ** Invariants of reachable states *)

Lemma offline_without_socket acts s :
  socket s = None -> isConnected s = false ->
  isConnected (run acts s) = false.
Proof.
  revert s. induction acts as [| a acts IH]; intros s Hs Hc; [exact Hc |].
  change (run (a :: acts) s) with (run acts (step a s)).
  apply IH.
  - pose proof (listeners_step a s) as H. unfold listeners in H.
    rewrite Hs in H. destruct (socket (step a s)); [discriminate | reflexivity].
  - destruct a;
      try (unfold step; rewrite (@preserves_local_calls _ isConnected);
           solve [ assumption | reflexivity | intros; reflexivity
                 | discriminate | intros; discriminate ]).
    + reflexivity.
    + unfold step, exec. simpl perform. now rewrite (fire_unwired _ _ _ _ Hs).
Qed.

(** X7.  In every reachable state a hub that is marked connected has a
    socket, with the six listeners installed: a hub built without a
    socket never becomes connected. *)
Theorem connected_hub_has_a_socket :
  forall s : TaskObservable,
    reachable s -> isConnected s = true -> wired s.
Proof.
  intros s Hr Hc. destruct (reachable_wired Hr) as [Hnone | Hw]; [ | exact Hw].
  exfalso. destruct Hr as [has_socket [uid [oe [acts ->]]]].
  destruct has_socket.
  - pose proof (listeners_run acts
      (new_TaskObservable (Some fresh_socket) uid oe)) as H.
    unfold listeners in H. rewrite Hnone in H. discriminate.
  - rewrite offline_without_socket in Hc; [discriminate | reflexivity | reflexivity].
Qed.

Lemma connected_hub_has_a_socket_witness : wired hub_online.
Proof.
  apply (@connected_hub_has_a_socket hub_online).
  - exists true, "alice", true,
      [AddObserver (recorder 1) "a"; AddObserver (rejecting 2) "b";
       SocketEvent "connect" JUndefined 0%Z].
    reflexivity.
  - reflexivity.
Defined.

(** ** What goes out and what comes in *)

(** X8.  While connected, N publications call [socket.emit] exactly N
    times, in publication order, each time with the type, task id, user
    id, timestamp and data of the event built for that publication;
    nothing is put on the queue.  For observers whose [update] does not
    throw synchronously. *)
Theorem online_publications_are_sent_in_order :
  forall (s : TaskObservable) (so : Socket) (ps : list (Publish * Z)),
    socket s = Some so -> isConnected s = true ->
    forallb (quiet (observers s)) (map (event_of (userId s)) ps) = true ->
    sent_of (publish_all ps s)
      = (sent_of s ++ map message_of (map (event_of (userId s)) ps))%list /\
    eventQueue (publish_all ps s) = eventQueue s.
Proof.
  intros s so ps Hs Hc Hq. rewrite (@publish_all_online ps s so Hs Hc Hq).
  unfold sent_of. simpl. now rewrite Hs.
Qed.

Lemma online_publications_are_sent_in_order_witness :
  sent_of (publish_all three_publications hub_online)
    = (sent_of hub_online
         ++ map message_of (map (event_of "alice") three_publications))%list /\
  eventQueue (publish_all three_publications hub_online) = eventQueue hub_online.
Proof.
  apply (@online_publications_are_sent_in_order hub_online _ three_publications
           eq_refl eq_refl).
  reflexivity.
Defined.

Lemma handler_for_other name :
  ~ In name socket_event_names -> handler_for name = None.
Proof.
  intros H. unfold handler_for.
  repeat match goal with
         | |- context [String.eqb ?c name] =>
             destruct (String.eqb_spec c name) as [<- | ?];
             [ exfalso; apply H; simpl; tauto | ]
         end.
  reflexivity.
Qed.

(** X9.  The hub reacts to six socket events only.  Any other event
    leaves it exactly as it was; in particular ["task:event"], the name
    under which [broadcastEvent] itself emits, has no listener, so a hub
    does not hear what another hub emits unless the peer renames it.  A
    hub without a socket reacts to nothing. *)
Theorem other_socket_events_are_ignored :
  forall (s : TaskObservable) (name : string) (d : JsVal) (now : Z),
    socket s = None \/ (wired s /\ ~ In name socket_event_names) ->
    step (SocketEvent name d now) s = s /\
    ~ In "task:event" socket_event_names.
Proof.
  intros s name d now H. split.
  - unfold step, exec. simpl perform. destruct H as [Hn | [Hw Hname]].
    + now rewrite (@fire_unwired name d now s Hn).
    + rewrite (@fire_wired name d now s Hw).
      now rewrite (@handler_for_other name Hname).
  - simpl. intuition discriminate.
Qed.

Lemma other_socket_events_are_ignored_witness :
  step (SocketEvent "task:event"
          (JObj [("type", JStr "TASK_CREATED"); ("taskId", JStr "t1")]) 3%Z)
       hub_online = hub_online /\
  ~ In "task:event" socket_event_names.
Proof.
  apply (@other_socket_events_are_ignored hub_online "task:event").
  right. split.
  - eexists. split; reflexivity.
  - simpl. intuition discriminate.
Defined.

(** X10.  Round trip of the wire format.  When the object that
    [broadcastEvent] emits for an event reaches [handleTaskEvent] of a
    connected hub, [handleTaskEvent] resolves and the observers of that
    hub, in the Map's order up to and including the first one whose
    [update] throws synchronously (all of them when none does), are
    handed an event with the same type, task id, user id and data; its
    timestamp is the date parsed from the ISO string that was sent. *)
Theorem emitted_object_is_rebuilt :
  forall (iso : Date -> string) (e : TaskEvent) (s : TaskObservable),
    let m := mkTaskEventMessage (type e) (taskId e) (ev_userId e)
               (timestamp e) (data e) in
    let e' := mkTaskEvent (type e) (taskId e) (ev_userId e)
                (DateOf (JStr (iso (timestamp e)))) (data e) in
    isConnected s = true ->
    message_of e = EmitTaskEvent m /\
    outcome (handleTaskEvent (wire_object iso m)) s = Ok tt /\
    delivered (exec (handleTaskEvent (wire_object iso m)) s)
      = (delivered s ++ fanout (reached (observers s) e') e')%list /\
    (quiet (observers s) e' = true -> reached (observers s) e' = observers s).
Proof.
  intros iso e s m e' Hc. split; [reflexivity | split; [ | split ] ].
  - destruct (handleTaskEvent_total (wire_object iso m) s) as [[] H]. exact H.
  - destruct (@handleTaskEvent_effect (wire_object iso m) s eq_refl) as [H _].
    rewrite Hc in H. exact H.
  - apply quiet_reached.
Qed.

Lemma emitted_object_is_rebuilt_witness :
  let e := event_of "bob" (PubUpdated task2, 8%Z) in
  let m := mkTaskEventMessage (type e) (taskId e) (ev_userId e)
             (timestamp e) (data e) in
  let e' := mkTaskEvent (type e) (taskId e) (ev_userId e)
              (DateOf (JStr (iso_stub (timestamp e)))) (data e) in
  message_of e = EmitTaskEvent m /\
  outcome (handleTaskEvent (wire_object iso_stub m)) hub_raising = Ok tt /\
  delivered (exec (handleTaskEvent (wire_object iso_stub m)) hub_raising)
    = (delivered hub_raising ++ fanout (reached (observers hub_raising) e') e')%list /\
  (quiet (observers hub_raising) e' = true ->
   reached (observers hub_raising) e' = observers hub_raising).
Proof.
  apply (@emitted_object_is_rebuilt iso_stub
           (event_of "bob" (PubUpdated task2, 8%Z)) hub_raising).
  reflexivity.
Defined.



(** ** The replay on [connect] *)

Lemma processEventQueue_throws fuel s e q error :
  isConnected s = true -> eventQueue s = e :: q ->
  first_throw (observers s) e = Some error ->
  processEventQueue (S fuel) s =
  (Throw error,
   set_unhandled (unhandled s ++ orphaned (observers s) e)
     (set_delivered (delivered s ++ fanout (reached (observers s) e) e)
        (set_eventQueue q s))).
Proof.
  intros Hc Hq Hf. simpl. unfold bind at 1, gets. unfold bind at 1.
  rewrite Hq, Hc. unfold bind at 1, modify. unfold bind at 1.
  rewrite notify_run. simpl. now rewrite Hf.
Qed.

(** X12.  When an observer's [update] throws during the replay of the
    queue, the replay stops there: the event being replayed has already
    been taken off the queue and is lost for the observers after the
    throwing one, the events behind it stay queued, and nothing reaches
    [console.error] or [onError].  What is left is unhandled
    rejections: first those of the promises that the observers called
    before the throwing one returned, then the error itself (the promise
    of [processEventQueue], which nobody awaits).  The hub is marked
    connected all the same. *)
Theorem replay_stops_at_throwing_observer :
  forall (s : TaskObservable) (d : JsVal) (now : Z)
         (e : TaskEvent) (q : list TaskEvent) (error : string),
    wired s -> eventQueue s = e :: q ->
    first_throw (observers s) e = Some error ->
    let s' := step (SocketEvent "connect" d now) s in
    isConnected s' = true /\
    eventQueue s' = q /\
    delivered s' = (delivered s ++ fanout (reached (observers s) e) e)%list /\
    unhandled s'
      = (unhandled s ++ rejections (settled_before (observers s) e) ++ [error])%list /\
    reported s' = reported s /\ console s' = console s /\
    sent_of s' = sent_of s.
Proof.
  intros s d now e q error Hw Hq Hf s'. unfold s'.
  rewrite (connect_listener_wired d now Hw).
  unfold exec, run_handler, bind, modify, gets, detached.
  rewrite (@processEventQueue_throws _ (set_isConnected true s) e q error
             eq_refl Hq Hf).
  unfold orphaned. cbn [observers set_isConnected]. rewrite Hf.
  cbn [snd unhandled set_unhandled set_delivered set_eventQueue set_isConnected].
  rewrite <- app_assoc. repeat split.
Qed.

Lemma replay_stops_at_throwing_observer_witness :
  let e1 := event_of "alice" (PubCreated task1, 1%Z) in
  let e2 := event_of "alice" (PubCreated task2, 2%Z) in
  let s := hub_backlog_rejecting_raising in
  let s' := step (SocketEvent "connect" JUndefined 3%Z) s in
  isConnected s' = true /\
  eventQueue s' = [e2] /\
  delivered s' = (delivered s ++ fanout (reached (observers s) e1) e1)%list /\
  unhandled s'
    = (unhandled s ++ rejections (settled_before (observers s) e1)
         ++ ["Error: raised"])%list /\
  reported s' = reported s /\ console s' = console s /\
  sent_of s' = sent_of s.
Proof.
  apply (@replay_stops_at_throwing_observer hub_backlog_rejecting_raising
           JUndefined 3%Z
           (event_of "alice" (PubCreated task1, 1%Z))
           [event_of "alice" (PubCreated task2, 2%Z)] "Error: raised").
  - eexists. split; reflexivity.
  - reflexivity.
  - reflexivity.
Defined.



(** ** [TaskEventHandler] *)

Lemma all_handlers_quiet obs e : all_handlers obs -> quiet obs e = true.
Proof.
  induction obs as [| [k o] rest IH]; intros H; [reflexivity |].
  simpl. destruct (H k o (or_introl eq_refl)) as [ref [cb ->]].
  rewrite TaskEventHandler_never_throws. simpl.
  apply IH. intros k' o' Hin. apply (H k' o'). now right.
Qed.

(** X14.  A hub whose observers are all [TaskEventHandler]s never fails
    a publication because of them: whatever the callbacks do (return,
    throw, reject), [emitTask...] resolves and every handler has been
    called with the event. *)
Theorem handlers_never_fail_a_publication :
  forall (s : TaskObservable) (p : Publish) (now : Z),
    all_handlers (observers s) ->
    outcome (publish p now) s = Ok tt /\
    delivered (exec (publish p now) s)
      = (delivered s ++ fanout (observers s) (event_of (userId s) (p, now)))%list.
Proof.
  intros s p now H. apply rejections_do_not_block.
  now apply all_handlers_quiet.
Qed.

Lemma handlers_never_fail_a_publication_witness :
  outcome (publish (PubCreated task1) 4%Z) hub_handlers = Ok tt /\
  delivered (exec (publish (PubCreated task1) 4%Z) hub_handlers)
    = (delivered hub_handlers
         ++ fanout (observers hub_handlers)
              (event_of (userId hub_handlers) (PubCreated task1, 4%Z)))%list.
Proof.
  apply (@handlers_never_fail_a_publication hub_handlers (PubCreated task1) 4%Z).
  intros k o H. simpl in H.
  destruct H as [H | [H | []]]; inversion H; eexists; eexists; reflexivity.
Defined.

(** X15.  [TaskEventHandler.update] dispatches on the event type: a
    [TASK_CREATED] or [TASK_UPDATED] event with truthy data behaves as
    [onTaskCreated(event.data)] or [onTaskUpdated(event.data)], and with
    falsy data calls nothing; a [TASK_DELETED] event behaves as
    [onTaskDeleted(event.taskId)] whatever its data; an event of any
    other type ([USER_PRESENCE_UPDATED], [TASK_STATUS_CHANGED], a type
    that is not a string) calls no callback and fulfils. *)
Theorem TaskEventHandler_update_dispatch :
  forall (ref : nat) (cb : Callbacks) (e : TaskEvent),
    update (TaskEventHandler ref cb) e =
    if js_is (type e) "TASK_CREATED" then
      if truthy (data e) then TaskEventHandler_onTaskCreated cb (data e)
      else Ok (ReturnsPromise Fulfilled)
    else if js_is (type e) "TASK_UPDATED" then
      if truthy (data e) then TaskEventHandler_onTaskUpdated cb (data e)
      else Ok (ReturnsPromise Fulfilled)
    else if js_is (type e) "TASK_DELETED" then
      TaskEventHandler_onTaskDeleted cb (taskId e)
    else Ok (ReturnsPromise Fulfilled).
Proof.
  intros ref cb e. simpl. unfold TaskEventHandler_update,
    TaskEventHandler_onTaskCreated, TaskEventHandler_onTaskUpdated,
    TaskEventHandler_onTaskDeleted.
  destruct (js_is (type e) "TASK_CREATED").
  - destruct (onTaskCreated cb), (truthy (data e)); reflexivity.
  - destruct (js_is (type e) "TASK_UPDATED").
    + destruct (onTaskUpdated cb), (truthy (data e)); reflexivity.
    + destruct (js_is (type e) "TASK_DELETED"); reflexivity.
Qed.

(** ** Presence messages: [handlePresenceUpdate] *)

Lemma presence_event_inbound fields now :
  inbound_event
    (event_object
       (mkTaskEvent (JStr "USER_PRESENCE_UPDATED")
          (if truthy (assoc "currentTaskId" fields)
           then assoc "currentTaskId" fields else JStr "")
          (assoc "userId" fields) (DateNow now) (JObj fields)))
  = presence_event fields now.
Proof. reflexivity. Qed.

Lemma handlePresenceUpdate_object fields now s :
  handlePresenceUpdate (JObj fields) now s
  = handleTaskEvent
      (event_object
         (mkTaskEvent (JStr "USER_PRESENCE_UPDATED")
            (if truthy (assoc "currentTaskId" fields)
             then assoc "currentTaskId" fields else JStr "")
            (assoc "userId" fields) (DateNow now) (JObj fields))) s.
Proof. reflexivity. Qed.

(** X16.  A [user:presence] record is turned into a
    [USER_PRESENCE_UPDATED] event whose task id is the record's
    [currentTaskId], or the empty string when that is missing or falsy,
    and whose user id is the record's; the record itself is not passed
    on (the event's data is [undefined], so [isOnline] and [lastSeen]
    never reach an observer).  The event is dispatched when the hub is
    connected and queued otherwise. *)
Theorem presence_record_is_not_passed_on :
  forall (s : TaskObservable) (fields : list (string * JsVal)) (now : Z),
    let e := presence_event fields now in
    let s' := exec (handlePresenceUpdate (JObj fields) now) s in
    outcome (handlePresenceUpdate (JObj fields) now) s = Ok tt /\
    data e = JUndefined /\
    delivered s'
      = (delivered s
           ++ if isConnected s then fanout (reached (observers s) e) e else [])%list /\
    eventQueue s' = (eventQueue s ++ if isConnected s then [] else [e])%list.
Proof.
  intros s fields now e s'. unfold s', outcome, exec.
  rewrite handlePresenceUpdate_object.
  split; [ | split; [reflexivity |] ].
  - destruct (handleTaskEvent_total
                (event_object
                   (mkTaskEvent (JStr "USER_PRESENCE_UPDATED")
                      (if truthy (assoc "currentTaskId" fields)
                       then assoc "currentTaskId" fields else JStr "")
                      (assoc "userId" fields) (DateNow now) (JObj fields))) s)
      as [[] H]. exact H.
  - apply (@handleTaskEvent_effect
             (event_object
                (mkTaskEvent (JStr "USER_PRESENCE_UPDATED")
                   (if truthy (assoc "currentTaskId" fields)
                    then assoc "currentTaskId" fields else JStr "")
                   (assoc "userId" fields) (DateNow now) (JObj fields))) s).
    reflexivity.
Qed.

(** X17.  In a hub of [TaskEventHandler]s a presence message reaches
    every handler and runs no callback: each [update] fulfils without
    looking at the callbacks. *)
Theorem presence_runs_no_callback :
  forall (s : TaskObservable) (fields : list (string * JsVal)) (now : Z),
    isConnected s = true -> all_handlers (observers s) ->
    let e := presence_event fields now in
    handlePresenceUpdate (JObj fields) now s
      = (Ok tt, set_delivered (delivered s ++ fanout (observers s) e) s) /\
    (forall k o, In (k, o) (observers s) ->
       update o e = Ok (ReturnsPromise Fulfilled)).
Proof.
  intros s fields now Hc Hh e. split.
  - rewrite handlePresenceUpdate_object.
    rewrite handleTaskEvent_connected; auto.
    rewrite presence_event_inbound. now apply all_handlers_quiet.
  - intros k o Hin. destruct (Hh k o Hin) as [ref [cb ->]]. reflexivity.
Qed.

Lemma presence_runs_no_callback_witness :
  let e := presence_event presence_fields 9%Z in
  handlePresenceUpdate (JObj presence_fields) 9%Z hub_handlers
    = (Ok tt,
       set_delivered (delivered hub_handlers ++ fanout (observers hub_handlers) e)
         hub_handlers) /\
  (forall k o, In (k, o) (observers hub_handlers) ->
     update o e = Ok (ReturnsPromise Fulfilled)).
Proof.
  apply (@presence_runs_no_callback hub_handlers presence_fields 9%Z).
  - reflexivity.
  - intros k o H. simpl in H.
    destruct H as [H | [H | []]]; inversion H; eexists; eexists; reflexivity.
Defined.

(** X18.  A [user:presence] message that is [null] or [undefined] is
    not caught: [handlePresenceUpdate] reads the record outside any
    [try], so its promise is rejected and left unhandled.  Nothing is
    delivered or queued and, unlike for a task message, neither
    [console.error] nor [onError] is called. *)
Theorem nullish_presence_is_unhandled :
  forall (s : TaskObservable) (d : JsVal) (now : Z),
    wired s -> nullish d = true ->
    exists error,
      get_prop d "currentTaskId" = Throw error /\
      step (SocketEvent "user:presence" d now) s
        = set_unhandled (unhandled s ++ [error]) s.
Proof.
  intros s d now Hw Hn. unfold step, exec. simpl perform.
  rewrite (@fire_wired "user:presence" d now s Hw).
  change (handler_for "user:presence") with (Some HandlePresenceUpdate).
  cbn [snd]. unfold exec, run_handler, detached, handlePresenceUpdate, bind, lift.
  destruct d; try discriminate Hn; eexists; split; reflexivity.
Qed.

Lemma nullish_presence_is_unhandled_witness :
  exists error,
    get_prop JNull "currentTaskId" = Throw error /\
    step (SocketEvent "user:presence" JNull 3%Z) hub_online
      = set_unhandled (unhandled hub_online ++ [error]) hub_online.
Proof.
  apply (@nullish_presence_is_unhandled hub_online JNull 3%Z).
  - eexists. split; reflexivity.
  - reflexivity.
Defined.

(** ** Who gets the replay *)

Lemma received_fanouts_absent k obs es :
  ~ In k (map fst obs) -> received k (flat_map (fanout obs) es) = [].
Proof.
  intros H. induction es as [| e es IH]; [reflexivity |].
  simpl. now rewrite received_app, IH, received_fanout_absent.
Qed.

(** X19.  The replay on [connect] goes to the observers registered at
    that moment, not to those registered when the events were published:
    an observer added after publications made offline was handed none of
    them at the time, and is handed every queued event, oldest first,
    when the socket connects.  For observers whose [update] does not
    throw synchronously. *)
Theorem late_observer_receives_the_backlog :
  forall (s : TaskObservable) (ps : list (Publish * Z)) (o : Observer)
         (k : string) (d : JsVal) (cnow : Z),
    wired s -> isConnected s = false -> keys_distinct s ->
    ~ In k (map fst (observers s)) ->
    let es := map (event_of (userId s)) ps in
    forallb (quiet (observers s)) es = true ->
    forallb (quiet (observers s ++ [(k, o)])) (eventQueue s ++ es) = true ->
    let s1 := publish_all ps s in
    let s3 := run [AddObserver o k; SocketEvent "connect" d cnow] s1 in
    received k (delivered_since s s1) = [] /\
    received k (delivered_since s s3) = (eventQueue s ++ es)%list.
Proof.
  intros s ps o k d cnow Hw Hc Hk Hfresh es Hq Hq' s1 s3.
  assert (E1 : s1 = set_eventQueue (eventQueue s ++ es)
                      (set_delivered
                         (delivered s ++ flat_map (fanout (observers s)) es) s)).
  { unfold s1. now rewrite (publish_all_offline ps s Hc Hq). }
  set (s2 := step (AddObserver o k) s1).
  assert (E2 : s2 = set_observers (observers s ++ [(k, o)]) s1).
  { unfold s2, step, exec. simpl. rewrite E1. simpl.
    now rewrite (map_set_fresh _ _ _ Hfresh). }
  assert (Hw2 : wired s2) by (rewrite E2, E1; exact Hw).
  assert (E3 : s3 = set_eventQueue []
                      (set_delivered
                         (delivered s2
                            ++ flat_map (fanout (observers s2)) (eventQueue s2))
                         (set_isConnected true s2))).
  { change s3 with (step (SocketEvent "connect" d cnow) s2).
    rewrite (connect_listener_wired d cnow Hw2).
    apply on_connect_drains. rewrite E2, E1. exact Hq'. }
  assert (Hnd : NoDup (map fst (observers s ++ [(k, o)]))).
  { rewrite <- (map_set_fresh _ o _ Hfresh). now apply map_set_NoDup. }
  assert (Hin : In (k, o) (observers s ++ [(k, o)])).
  { apply in_or_app. right. now left. }
  split.
  - erewrite delivered_since_app; [ | rewrite E1; simpl; reflexivity ].
    now apply received_fanouts_absent.
  - erewrite delivered_since_app;
      [ | rewrite E3, E2, E1; simpl; rewrite <- app_assoc; reflexivity ].
    rewrite received_app, (received_fanouts_absent _ _ es Hfresh).
    exact (received_fanouts k o _ (eventQueue s ++ es) Hnd Hin).
Qed.

Lemma late_observer_receives_the_backlog_witness :
  let es := map (event_of "alice") three_publications in
  let s1 := publish_all three_publications hub_offline in
  let s3 := run [AddObserver (recorder 3) "late";
                 SocketEvent "connect" JUndefined 9%Z] s1 in
  received "late" (delivered_since hub_offline s1) = [] /\
  received "late" (delivered_since hub_offline s3)
    = (eventQueue hub_offline ++ es)%list.
Proof.
  apply (@late_observer_receives_the_backlog hub_offline three_publications
           (recorder 3) "late" JUndefined 9%Z).
  - eexists. split; reflexivity.
  - reflexivity.
  - unfold keys_distinct. simpl. repeat constructor; simpl; intuition discriminate.
  - simpl. intuition discriminate.
  - reflexivity.
  - reflexivity.
Defined.
